(** * Verification of the PDF OCR pipeline of [app.py]

    A shallow embedding of the document-to-extraction pipeline: the
    rasterizer [pdf_to_images], the extraction client
    [extract_text_with_claude], the orchestration loops of [main] and the
    report views built at the end of [main].

    Python values are modelled as follows.
    - A [str] is a list of Unicode code points ([N]); [len], slicing and
      [replace] then count characters the way Python does.
    - Calls into PyMuPDF, PIL, the Anthropic client and pandas are fields of
      a record [World]; each call that may raise returns a [result].
    - Streamlit output and the calls made to the outside are appended to a
      log of [event]s, in program order.  Streamlit calls are taken to
      succeed, except where a definition named [..._keyed] threads
      Streamlit's registry of widget keys, which refuses a repeated key.
    - The login form, the configuration lookup and the default text of the
      template area are inputs of a run ([Inputs]). *)

From Stdlib Require Import List NArith ZArith Arith Bool Lia.
From Stdlib Require Import Strings.String Strings.Ascii.
From Stdlib Require Import Numbers.DecimalString Numbers.DecimalNat.
Import ListNotations.

(** ** Python strings *)

Module PyStr.

Definition char := N.
Definition str := list char.

(** A literal of the source text, character by character. *)
Definition lit (s : string) : str :=
  map N_of_ascii (list_ascii_of_string s).

(** The line feed, written [\n] in the source. *)
Definition nl : char := 10%N.

(** [str(n)] for a non-negative [int]. *)
Definition str_of_nat (n : nat) : str :=
  lit (NilEmpty.string_of_uint (Nat.to_uint n)).

Definition str_eqb (a b : str) : bool :=
  if list_eq_dec N.eq_dec a b then true else false.

(** [len(s)]. *)
Definition len (s : str) : nat := List.length s.

(** [s.startswith(p)]. *)
Fixpoint startswith (p s : str) : bool :=
  match p, s with
  | [], _ => true
  | _ :: _, [] => false
  | a :: p', b :: s' => N.eqb a b && startswith p' s'
  end.

(** [s.replace(old, new)] scans [s] from the left; at an occurrence of
    [old] it emits [new] and jumps over the occurrence.  [skip] counts the
    characters of the current occurrence still to jump over. *)
Fixpoint replace_from (old new : str) (skip : nat) (s : str) : str :=
  match s with
  | [] => []
  | c :: s' =>
      match skip with
      | S k => replace_from old new k s'
      | O =>
          if startswith old s
          then new ++ replace_from old new (len old - 1) s'
          else c :: replace_from old new 0 s'
      end
  end.

Definition replace (old new s : str) : str :=
  match old with
  | [] => new ++ flat_map (fun c => c :: new) s
  | _ :: _ => replace_from old new 0 s
  end.

(** [s.count(p)] would skip overlapping occurrences; [occurrences] counts
    every position of [s] at which [p] starts. *)
Fixpoint occurrences (p s : str) : nat :=
  match s with
  | [] => 0
  | _ :: s' => (if startswith p s then 1 else 0) + occurrences p s'
  end.

(** [s[:n]]. *)
Definition slice_to (n : nat) (s : str) : str := firstn n s.

End PyStr.
Import PyStr.

(** ** Constants of the report *)

Definition ELLIPSIS : str := lit "...".
Definition PREVIEW_CAP : nat := 500.

(** [pdf_text[:500] + "..." if len(pdf_text) > 500 else pdf_text] *)
Definition preview (pdf_text : str) : str :=
  if PREVIEW_CAP <? len pdf_text
  then slice_to PREVIEW_CAP pdf_text ++ ELLIPSIS
  else pdf_text.

(** [f"\n\n--- Page {page_num} ---\n{extracted_text}"] *)
Definition page_marker (page_num : nat) : str :=
  lit "--- Page " ++ str_of_nat page_num ++ lit " ---".

Definition page_block (page_num : nat) (extracted_text : str) : str :=
  [nl; nl] ++ page_marker page_num ++ [nl] ++ extracted_text.

(** ** Exceptions and results *)

(** A Python exception, kept as the text [str(e)] gives for it. *)
Inductive exn : Type := Exception (msg : str).

Definition str_of_exn (e : exn) : str :=
  match e with Exception msg => msg end.

Inductive result (A : Type) : Type :=
| Ok (a : A)
| Raise (e : exn).

Arguments Ok {A} a.
Arguments Raise {A} e.

(** [IndexError] of [response.content[0]] on an empty list. *)
Definition IndexError : exn := Exception (lit "list index out of range").

(** ** Objects of the libraries *)

Definition bytes := list N.

Inductive Document : Type := DocumentHandle (h : N).
Inductive Page : Type := PageHandle (h : N).
Inductive Pixmap : Type := PixmapHandle (h : N).
Inductive Image : Type := ImageHandle (h : N).
Inductive Client : Type := ClientHandle (h : N).

(** [fitz.Matrix(zoom_x, zoom_y)]: a pure scaling matrix. *)
Record Matrix : Type := mkMatrix { zoom_x : Z; zoom_y : Z }.

(** An uploaded file: [pdf_file.name] and what [pdf_file.read()] returns
    after [pdf_file.seek(0)]. *)
Record UploadedFile : Type := mkUploadedFile {
  name : str;
  read : bytes
}.

(** The single-turn request of [client.messages.create]. *)
Record Request : Type := mkRequest {
  model : str;
  max_tokens : nat;
  text : str;          (* the prompt of the "text" block *)
  media_type : str;    (* of the "image" block *)
  data : str           (* base64 payload of the "image" block *)
}.

Record ContentBlock : Type := mkContentBlock { block_text : str }.
Record Response : Type := mkResponse { content : list ContentBlock }.

(** One dictionary appended to [results]. *)
Record Entry : Type := mkEntry {
  Filename : str;
  Pages : nat;
  Extracted_Text : str
}.

(** The collaborators outside the program. *)
Record World : Type := mkWorld {
  fitz_open : bytes -> result Document;
  page_count : Document -> nat;
  load_page : Document -> nat -> result Page;
  get_pixmap : Page -> Matrix -> result Pixmap;
  pil_tobytes : Pixmap -> result bytes;
  Image_open : bytes -> result Image;
  Image_save : Image -> result bytes;
  b64encode : bytes -> str;
  Anthropic : str -> result Client;
  messages_create : Client -> Request -> result Response;
  to_csv : list Entry -> str
}.

(** ** Effects *)

(** What the program shows and which outside calls it makes. *)
Inductive event : Type :=
| st_title (body : str)
| st_markdown (body : str)
| st_info (body : str)
| st_warning (body : str)
| st_error (body : str)
| st_text_input (label : str)
| st_button (label : str)
| st_checkbox (label : str)
| st_file_uploader (label : str)
| st_expander (label : str)
| st_columns (n : nat)
| st_image (image : Image)
| st_spinner (body : str)
| st_text_area (label value key : str)
| st_dataframe (rows : list Entry)
| st_download_button (label csv file_name mime : str)
| status_text_text (body : str)
| progress_bar_progress (num den : nat)
| ev_fitz_open (stream : bytes)
| ev_get_pixmap (page : Page) (mat : Matrix)
| ev_close (doc : Document)
| ev_messages_create (client : Client) (req : Request).

(** A computation logs events and returns or raises. *)
Definition M (A : Type) : Type := (list event * result A)%type.

Definition ret {A} (a : A) : M A := ([], Ok a).
Definition raise {A} (e : exn) : M A := ([], Raise e).
Definition emit (ev : event) : M unit := ([ev], Ok tt).
Definition lift {A} (r : result A) : M A := ([], r).

Definition bind {A B} (m : M A) (k : A -> M B) : M B :=
  match m with
  | (log, Ok a) => let (log', r) := k a in (log ++ log', r)
  | (log, Raise e) => (log, Raise e)
  end.

(** [try: m except Exception as e: handler e] *)
Definition try_except {A} (m : M A) (handler : exn -> M A) : M A :=
  match m with
  | (log, Ok a) => (log, Ok a)
  | (log, Raise e) => let (log', r) := handler e in (log ++ log', r)
  end.

Definition events {A} (m : M A) : list event := fst m.
Definition outcome {A} (m : M A) : result A := snd m.

Arguments ret : simpl never.
Arguments raise : simpl never.
Arguments emit : simpl never.
Arguments lift : simpl never.
Arguments bind : simpl never.
Arguments try_except : simpl never.
Arguments events : simpl never.
Arguments outcome : simpl never.

Declare Scope py_scope.
Delimit Scope py_scope with py.
Notation "x <- m ;; k" := (bind m (fun x => k))
  (at level 61, m at next level, right associativity) : py_scope.
Notation "m ;; k" := (bind m (fun _ => k))
  (at level 61, right associativity) : py_scope.
Open Scope py_scope.

(** ** The rasterizer *)

(** The body of [for page_num in range(pdf_document.page_count)]. *)
Fixpoint pdf_to_images_loop (w : World) (pdf_document : Document)
    (page_nums : list nat) (images : list Image) : M (list Image) :=
  match page_nums with
  | [] => ret images
  | page_num :: rest =>
      page <- lift (load_page w pdf_document page_num) ;;
      let mat := mkMatrix 2 2 in
      emit (ev_get_pixmap page mat) ;;
      pix <- lift (get_pixmap w page mat) ;;
      img_data <- lift (pil_tobytes w pix) ;;
      img <- lift (Image_open w img_data) ;;
      pdf_to_images_loop w pdf_document rest (images ++ [img])
  end.

Definition pdf_to_images (w : World) (pdf_file : UploadedFile)
    : M (option (list Image)) :=
  let pdf_bytes := read pdf_file in
  try_except
    (emit (ev_fitz_open pdf_bytes) ;;
     pdf_document <- lift (fitz_open w pdf_bytes) ;;
     images <- pdf_to_images_loop w pdf_document
                 (seq 0 (page_count w pdf_document)) [] ;;
     emit (ev_close pdf_document) ;;
     ret (Some images))
    (fun e =>
       emit (st_error (lit "Error converting PDF to images: " ++ str_of_exn e)) ;;
       ret None).

(** ** The extraction client *)

Definition dq : char := 34%N.

Definition encode_image (w : World) (image : Image) : M str :=
  buffered <- lift (Image_save w image) ;;
  ret (b64encode w buffered).

Definition structured_prompt (filename structured_format : str) : str :=
  lit "Please perform OCR on this image from file: "
  ++ filename
  ++ lit "

IMPORTANT: This appears to be a form or questionnaire with rating scales. Please extract the content in a consistent, structured format.

Expected format:
"
  ++ structured_format
  ++ lit "

Guidelines:
1. For rating scale questions (1-5), look for CIRCLED numbers (not X marks). "
  ++ lit "Extract as: "
  ++ [dq]
  ++ lit "Question text [Selected: X]"
  ++ [dq]
  ++ lit " where X is the circled number
2. For multiple choice, show: "
  ++ [dq]
  ++ lit "Question [Selected: Option]"
  ++ [dq]
  ++ lit " 
3. For text fields, show: "
  ++ [dq]
  ++ lit "Field name: [Content]"
  ++ [dq]
  ++ lit "
4. Preserve the exact question numbers and order
5. If a question has sub-items (a, b, c), preserve that structure
6. If no option is circled/selected, indicate as [Selected: None]
7. IMPORTANT: Look for circles ("
  ++ [9675%N]
  ++ lit ") around numbers, not checkmarks or X marks

Return the extracted content in a consistent, structured format that can be easily parsed.".

Definition free_form_prompt (filename : str) : str :=
  lit "Please perform OCR on this image and extract all text content. 
    This is from file: "
  ++ filename
  ++ lit "
    
    Format the output as structured data if you identify:
    - Tables: preserve the table structure
    - Forms: extract field names and values
    - Lists: maintain list formatting
    - Rating scales: show as "
  ++ [dq]
  ++ lit "Question [Selected: X]"
  ++ [dq]
  ++ lit "
    
    Return the extracted text in a clear, organized format.".

(** [if structured_format:] is false for [None] and for the empty text. *)
Definition build_prompt (filename : str) (structured_format : option str) : str :=
  match structured_format with
  | Some (c :: t) => structured_prompt filename (c :: t)
  | Some [] | None => free_form_prompt filename
  end.

(** The keyword arguments of [client.messages.create]. *)
Definition ocr_request (prompt base64_image : str) : Request :=
  mkRequest (lit "claude-3-5-sonnet-20241022") 4096 prompt
    (lit "image/png") base64_image.

Definition extract_text_with_claude (w : World) (image : Image)
    (api_key filename : str) (structured_format : option str) : M str :=
  client <- lift (Anthropic w api_key) ;;
  base64_image <- encode_image w image ;;
  let prompt := build_prompt filename structured_format in
  try_except
    (let req := ocr_request prompt base64_image in
     emit (ev_messages_create client req) ;;
     response <- lift (messages_create w client req) ;;
     match content response with
     | [] => raise IndexError
     | block :: _ => ret (block_text block)
     end)
    (fun e => ret (lit "Error processing image: " ++ str_of_exn e)).

(** ** The orchestrator *)

(** What the widgets hand to one run of [main]. *)
Record Inputs : Type := mkInputs {
  password_correct : option bool;   (* st.session_state.get("password_correct") *)
  api_key : str;
  use_template : bool;
  format_template_input : str;
  uploaded_files : list UploadedFile;
  process_clicked : bool
}.

Definition check_password (i : Inputs) : M bool :=
  match password_correct i with
  | Some true => ret true
  | other =>
      emit (st_markdown (lit "### " ++ [128272%N] ++ lit " Login")) ;;
      emit (st_text_input (lit "Email")) ;;
      emit (st_text_input (lit "Password")) ;;
      emit (st_button (lit "Login")) ;;
      match other with
      | Some false =>
          emit (st_error ([128533%N] ++ lit " User not known or password incorrect"))
      | _ => ret tt
      end ;;
      ret false
  end.

(** [for page_num, image in enumerate(images, 1)] *)
Fixpoint main_pages_loop (w : World) (api_key pdf_file_name : str)
    (format_template : option str) (page_num : nat) (images : list Image)
    (pdf_text : str) : M str :=
  match images with
  | [] => ret pdf_text
  | image :: rest =>
      let n := str_of_nat page_num in
      emit (st_markdown (lit "**Page " ++ n ++ lit "**")) ;;
      emit (st_image image) ;;
      emit (st_markdown (lit "**Extracted Text - Page " ++ n ++ lit "**")) ;;
      emit (st_spinner (lit "Processing page " ++ n ++ lit "...")) ;;
      extracted_text <-
        extract_text_with_claude w image api_key
          (pdf_file_name ++ lit " - Page " ++ n) format_template ;;
      emit (st_text_area (lit "Text from page " ++ n) extracted_text
              (pdf_file_name ++ lit "_" ++ n)) ;;
      main_pages_loop w api_key pdf_file_name format_template (S page_num) rest
        (pdf_text ++ page_block page_num extracted_text)
  end.

(** One turn of [for idx, pdf_file in enumerate(uploaded_files)]; it
    returns [results], extended when the document has pages. *)
Definition main_file_body (w : World) (api_key : str)
    (format_template : option str) (total idx : nat)
    (pdf_file : UploadedFile) (results : list Entry) : M (list Entry) :=
  emit (status_text_text (lit "Processing " ++ name pdf_file ++ lit "...")) ;;
  emit (progress_bar_progress (idx + 1) total) ;;
  emit (st_expander ([128196%N] ++ lit " " ++ name pdf_file)) ;;
  images <- pdf_to_images w pdf_file ;;
  match images with
  | Some (image :: more) =>
      let images := image :: more in
      emit (st_columns 2) ;;
      pdf_text <-
        main_pages_loop w api_key (name pdf_file) format_template 1
          images [] ;;
      ret (results ++
           [mkEntry (name pdf_file) (List.length images) (preview pdf_text)])
  | Some [] | None => ret results
  end.

(** [for idx, pdf_file in enumerate(uploaded_files)] *)
Fixpoint main_files_loop (w : World) (api_key : str)
    (format_template : option str) (total idx : nat)
    (files : list UploadedFile) (results : list Entry) : M (list Entry) :=
  match files with
  | [] => ret results
  | pdf_file :: rest =>
      results' <-
        main_file_body w api_key format_template total idx pdf_file results ;;
      main_files_loop w api_key format_template total (S idx) rest results'
  end.

(** [next((r["Extracted Text"] for r in results
          if r["Filename"] == filename), "")] *)
Definition next_extracted_text (results : list Entry) (filename : str) : str :=
  match find (fun r => str_eqb (Filename r) filename) results with
  | Some r => Extracted_Text r
  | None => []
  end.

(** The text handed to the "Full text" area of one result. *)
Definition full_text_shown (results : list Entry) (result : Entry) : str :=
  let full_text := next_extracted_text results (Filename result) in
  replace ELLIPSIS [] full_text.

(** [for idx, result in enumerate(results)] of the full-text section. *)
Fixpoint main_full_text_loop (results : list Entry) (idx : nat)
    (rest : list Entry) : M unit :=
  match rest with
  | [] => ret tt
  | result :: rest' =>
      emit (st_expander (Filename result ++ lit " - Full Text")) ;;
      emit (st_text_area (lit "Full text") (full_text_shown results result)
              (lit "full_" ++ str_of_nat idx)) ;;
      main_full_text_loop results (S idx) rest'
  end.

(** [if results:] and what follows. *)
Definition main_report (w : World) (results : list Entry) : M unit :=
  match results with
  | [] => ret tt
  | _ :: _ =>
      emit (st_markdown (lit "## " ++ [128202%N] ++ lit " Summary Table")) ;;
      emit (st_dataframe results) ;;
      let csv := to_csv w results in
      emit (st_download_button ([128229%N] ++ lit " Download results as CSV")
              csv (lit "ocr_results.csv") (lit "text/csv")) ;;
      emit (st_markdown (lit "## " ++ [128221%N] ++ lit " Full Extracted Texts")) ;;
      main_full_text_loop results 0 results
  end.

(** The block under [if uploaded_files and st.button(...)]. *)
Definition main_process (w : World) (api_key : str)
    (format_template : option str) (uploaded_files : list UploadedFile)
    : M unit :=
  let total := List.length uploaded_files in
  emit (progress_bar_progress 0 1) ;;
  results <- main_files_loop w api_key format_template total 0 uploaded_files [] ;;
  emit (status_text_text (lit "Processing complete!")) ;;
  emit (progress_bar_progress 1 1) ;;
  main_report w results.

Definition MAX_FILES : nat := 5.

Definition main (w : World) (i : Inputs) : M unit :=
  emit (st_title ([128196%N] ++ lit " Bulk PDF OCR with Claude")) ;;
  logged_in <- check_password i ;;
  if negb logged_in then ret tt else
  emit (st_markdown (lit "---")) ;;
  emit (st_text_input (lit "Enter your Anthropic API Key:")) ;;
  match api_key i with
  | [] =>
      emit (st_warning (lit "Please enter your Anthropic API key to continue"))
  | _ :: _ =>
      emit (st_expander ([128203%N] ++ lit " OCR Format Settings")) ;;
      emit (st_info (lit "Define a consistent format for structured documents (forms, questionnaires, etc.)")) ;;
      emit (st_checkbox (lit "Use structured format template")) ;;
      format_template <-
        (if use_template i
         then
           emit (st_text_area
                   (lit "Format Template (customize based on your document type):")
                   (format_template_input i) []) ;;
           ret (Some (format_template_input i))
         else ret None) ;;
      emit (st_file_uploader (lit "Upload PDF files (max 5)")) ;;
      match uploaded_files i with
      | [] => ret tt
      | _ :: _ =>
          if MAX_FILES <? List.length (uploaded_files i)
          then emit (st_error (lit "Please upload maximum 5 files at a time"))
          else
            emit (st_button ([128640%N] ++ lit " Process PDFs")) ;;
            if process_clicked i
            then main_process w (api_key i) format_template (uploaded_files i)
            else ret tt
      end
  end.

(** ** A small concrete world

    Used to run the program on explicit inputs.  A PDF is two bytes
    [tag; k]: it opens as a document of [k] pages whose page [i] has the
    handle [100 * tag + i]; any other byte string fails to open.  Rendering
    and PNG encoding keep the handle.  The model answers per page:
    tag 6 reads a short text that ends in three dots, tag 7 reads 600
    letters, the second page of a tag 9 document fails in transport, the
    pages of tag 5 come back with an empty content list, and the images of
    tag 8 cannot be saved as PNG. *)

Module Demo.

Definition fitz_open (stream : bytes) : result Document :=
  match stream with
  | [tag; k] => Ok (DocumentHandle (100 * tag + k))
  | [] => Raise (Exception (lit "cannot open empty document"))
  | _ => Raise (Exception (lit "cannot open broken document"))
  end.

Definition page_count (doc : Document) : nat :=
  match doc with DocumentHandle h => N.to_nat (h mod 100) end.

Definition load_page (doc : Document) (page_num : nat) : result Page :=
  match doc with
  | DocumentHandle h => Ok (PageHandle (100 * (h / 100) + N.of_nat page_num))
  end.

Definition get_pixmap (page : Page) (mat : Matrix) : result Pixmap :=
  match page with PageHandle h => Ok (PixmapHandle h) end.

Definition pil_tobytes (pix : Pixmap) : result bytes :=
  match pix with PixmapHandle h => Ok [h] end.

Definition Image_open (img_data : bytes) : result Image :=
  match img_data with
  | [h] => Ok (ImageHandle h)
  | _ => Raise (Exception (lit "cannot identify image file"))
  end.

Definition Image_save (image : Image) : result bytes :=
  match image with
  | ImageHandle h =>
      if (h / 100 =? 8)%N
      then Raise (Exception (lit "cannot write mode CMYK as PNG"))
      else Ok [h]
  end.

Definition b64encode (b : bytes) : str := b.

Definition Anthropic (api_key : str) : result Client := Ok (ClientHandle 0).

Definition messages_create (client : Client) (req : Request) : result Response :=
  match data req with
  | [h] =>
      let tag := (h / 100)%N in
      if (tag =? 9)%N && (h mod 100 =? 1)%N
      then Raise (Exception (lit "Connection error."))
      else if (tag =? 5)%N then Ok (mkResponse [])
      else if (tag =? 6)%N then Ok (mkResponse [mkContentBlock (lit "Wait...")])
      else if (tag =? 7)%N
      then Ok (mkResponse [mkContentBlock (repeat 97%N 600)])
      else Ok (mkResponse [mkContentBlock (lit "text " ++ str_of_nat (N.to_nat h))])
  | _ => Raise (Exception (lit "invalid base64 data"))
  end.

Definition to_csv (rows : list Entry) : str :=
  lit "Filename,Pages,Extracted Text" ++ [nl].

Definition world : World :=
  mkWorld fitz_open page_count load_page get_pixmap pil_tobytes Image_open
    Image_save b64encode Anthropic messages_create to_csv.

Definition pdf (file_name : string) (tag k : N) : UploadedFile :=
  mkUploadedFile (lit file_name) [tag; k].

Definition inputs (files : list UploadedFile) : Inputs :=
  mkInputs (Some true) (lit "sk-test") false [] files true.

Definition key : str := lit "sk-test".

(** Files of the runs below. *)
Definition a_pdf : UploadedFile := pdf "a.pdf" 1 1.
Definition b_pdf : UploadedFile := pdf "b.pdf" 9 3.
Definition c_pdf : UploadedFile := pdf "c.pdf" 2 2.
Definition empty_pdf : UploadedFile := pdf "empty.pdf" 3 0.
Definition broken_pdf : UploadedFile := mkUploadedFile (lit "broken.pdf") [1; 2; 3]%N.
Definition long_pdf : UploadedFile := pdf "long.pdf" 7 1.
Definition dots_pdf : UploadedFile := pdf "dots.pdf" 6 1.
(** A second file that is also called [a.pdf]. *)
Definition a_pdf_bis : UploadedFile := pdf "a.pdf" 2 1.

End Demo.


(** ** Vocabulary of the statements *)

(** Page [i] of [doc] loads as [page i], renders under the matrix of the
    program to [pix i], is encoded as the PNG [data i] and decoded as the
    image [img i]. *)
Definition renders (w : World) (doc : Document) (page : nat -> Page)
    (pix : nat -> Pixmap) (data : nat -> bytes) (img : nat -> Image)
    (i : nat) : Prop :=
  load_page w doc i = Ok (page i) /\
  get_pixmap w (page i) (mkMatrix 2 2) = Ok (pix i) /\
  pil_tobytes w (pix i) = Ok (data i) /\
  Image_open w (data i) = Ok (img i).

(** [stream] is a PDF the libraries accept: it opens as [doc] and every
    page of [doc] renders. *)
Definition valid_pdf (w : World) (stream : bytes) (doc : Document)
    (page : nat -> Page) (pix : nat -> Pixmap) (data : nat -> bytes)
    (img : nat -> Image) : Prop :=
  fitz_open w stream = Ok doc /\
  forall i, i < page_count w doc -> renders w doc page pix data img i.

(** What one call of the extraction client returns for page [page_num] of
    the file named [pdf_file_name]. *)
Definition extracted (w : World) (api_key pdf_file_name : str)
    (format_template : option str) (page_num : nat) (image : Image)
    : result str :=
  outcome (extract_text_with_claude w image api_key
             (pdf_file_name ++ lit " - Page " ++ str_of_nat page_num)
             format_template).

(** The texts of the pages of one document, in page order, numbered from
    [page_num]; the first call that raises ends the sequence. *)
Fixpoint page_texts (w : World) (api_key pdf_file_name : str)
    (format_template : option str) (page_num : nat) (images : list Image)
    : result (list str) :=
  match images with
  | [] => Ok []
  | image :: rest =>
      match extracted w api_key pdf_file_name format_template page_num image with
      | Raise e => Raise e
      | Ok t =>
          match page_texts w api_key pdf_file_name format_template
                  (S page_num) rest with
          | Raise e => Raise e
          | Ok ts => Ok (t :: ts)
          end
      end
  end.

(** The blocks of the pages [page_num], [page_num + 1], ... one after the
    other. *)
Fixpoint blocks (page_num : nat) (texts : list str) : str :=
  match texts with
  | [] => []
  | t :: rest => page_block page_num t ++ blocks (S page_num) rest
  end.

(** How every page marker starts. *)
Definition MARKER_START : str := lit "--- Page ".

(** What the rasterizer hands back for a file: [None] after a failure. *)
Definition images_of (w : World) (pdf_file : UploadedFile)
    : option (list Image) :=
  match outcome (pdf_to_images w pdf_file) with
  | Ok images => images
  | Raise _ => None
  end.

(** The entries one file adds to [results]: one when it has pages, none
    otherwise. *)
Definition file_entries (w : World) (api_key : str)
    (format_template : option str) (pdf_file : UploadedFile)
    : result (list Entry) :=
  match images_of w pdf_file with
  | Some (image :: more) =>
      match page_texts w api_key (name pdf_file) format_template 1
              (image :: more) with
      | Ok texts =>
          Ok [mkEntry (name pdf_file) (List.length (image :: more))
                (preview (blocks 1 texts))]
      | Raise e => Raise e
      end
  | Some [] | None => Ok []
  end.

(** The report of a batch, file after file, up to the first call that
    raises. *)
Fixpoint run_files (w : World) (api_key : str) (format_template : option str)
    (files : list UploadedFile) (results : list Entry)
    : result (list Entry) :=
  match files with
  | [] => Ok results
  | pdf_file :: rest =>
      match file_entries w api_key format_template pdf_file with
      | Ok entries =>
          run_files w api_key format_template rest (results ++ entries)
      | Raise e => Raise e
      end
  end.

(** The text the client returns once the request is sent. *)
Definition soft_text (w : World) (client : Client) (req : Request) : str :=
  match messages_create w client req with
  | Raise e => lit "Error processing image: " ++ str_of_exn e
  | Ok response =>
      match content response with
      | [] => lit "Error processing image: " ++ str_of_exn IndexError
      | block :: _ => block_text block
      end
  end.

(** The request sent for page [page_num] of the file named
    [pdf_file_name], whose image is saved as [png]. *)
Definition page_request (w : World) (pdf_file_name : str)
    (format_template : option str) (page_num : nat) (png : bytes) : Request :=
  ocr_request
    (build_prompt (pdf_file_name ++ lit " - Page " ++ str_of_nat page_num)
       format_template)
    (b64encode w png).

(** No call of the batch raises to [main]: the client object is built
    from the key, and every image of every file is saved as PNG. *)
Definition no_hard_failure (w : World) (api_key : str)
    (files : list UploadedFile) (client : Client) : Prop :=
  Anthropic w api_key = Ok client /\
  forall f images image,
    In f files -> images_of w f = Some images -> In image images ->
    exists png, Image_save w image = Ok png.

(** The events that only the processing of documents produces: calls to the
    PDF and model libraries, and the displays of pages and of the report. *)
Definition processing_event (ev : event) : bool :=
  match ev with
  | ev_fitz_open _ | ev_get_pixmap _ _ | ev_close _ | ev_messages_create _ _
  | st_image _ | st_columns _ | st_spinner _ | st_dataframe _
  | st_download_button _ _ _ _ | status_text_text _
  | progress_bar_progress _ _ => true
  | _ => false
  end.

(** The template in force for a run. *)
Definition chosen_template (i : Inputs) : option str :=
  if use_template i then Some (format_template_input i) else None.

(** What [main] shows, for a logged-in user with a key, up to the file
    uploader. *)
Definition main_prelude_events (i : Inputs) : list event :=
  [st_title ([128196%N] ++ lit " Bulk PDF OCR with Claude");
   st_markdown (lit "---");
   st_text_input (lit "Enter your Anthropic API Key:");
   st_expander ([128203%N] ++ lit " OCR Format Settings");
   st_info (lit "Define a consistent format for structured documents (forms, questionnaires, etc.)");
   st_checkbox (lit "Use structured format template")]
  ++ (if use_template i
      then [st_text_area
              (lit "Format Template (customize based on your document type):")
              (format_template_input i) []]
      else [])
  ++ [st_file_uploader (lit "Upload PDF files (max 5)")].


(** ** Configuration and login *)

(** A value kept in [st.session_state]. *)
Inductive pyval : Type :=
| PyStr (s : str)
| PyBool (b : bool).

(** A dictionary with text keys. *)
Definition dict (V : Type) : Type := str -> option V.

Definition dict_empty {V} : dict V := fun _ => None.

(** [d[key] = v] *)
Definition dict_set {V} (d : dict V) (key : str) (v : V) : dict V :=
  fun k => if str_eqb k key then Some v else d k.

(** [del d[key]] on a key that is present. *)
Definition dict_del {V} (d : dict V) (key : str) : dict V :=
  fun k => if str_eqb k key then None else d k.

(** [KeyError(key)], with the text Python gives for a dictionary. *)
Definition KeyError (key : str) : exn :=
  Exception (lit "'" ++ key ++ lit "'").

(** [d[key]] *)
Definition dict_getitem {V} (d : dict V) (key : str) : result V :=
  match d key with
  | Some v => Ok v
  | None => Raise (KeyError key)
  end.

(** Where [get_config] looks: [st.secrets], absent when Streamlit has no
    such attribute, and the environment of the process. *)
Record Config : Type := mkConfig {
  secrets : option (dict str);
  environ : dict str
}.

(** [os.getenv(key, default)] *)
Definition os_getenv (c : Config) (key : str) (default : option str)
    : option str :=
  match environ c key with
  | Some v => Some v
  | None => default
  end.

Definition get_config (c : Config) (key : str) (default : option str)
    : option str :=
  match secrets c with
  | Some st_secrets =>
      match st_secrets key with
      | Some v => Some v
      | None => os_getenv c key default
      end
  | None => os_getenv c key default
  end.

(** [value == expected] for a session value and a configured text. *)
Definition pyval_eq_config (value : pyval) (expected : option str) : bool :=
  match value, expected with
  | PyStr s, Some e => str_eqb s e
  | _, _ => false
  end.

(** The callback of the login button; it works on [st.session_state]. *)
Definition password_entered (c : Config) (session_state : dict pyval)
    : result (dict pyval) :=
  match dict_getitem session_state (lit "username") with
  | Raise e => Raise e
  | Ok username =>
      if pyval_eq_config username
           (get_config c (lit "AUTH_EMAIL") (Some (lit "admin@example.com")))
      then
        match dict_getitem session_state (lit "password") with
        | Raise e => Raise e
        | Ok password =>
            if pyval_eq_config password
                 (get_config c (lit "AUTH_PASSWORD") (Some (lit "admin123")))
            then
              let s1 := dict_set session_state (lit "password_correct")
                          (PyBool true) in
              let s2 := dict_del s1 (lit "password") in
              Ok (dict_del s2 (lit "username"))
            else
              Ok (dict_set session_state (lit "password_correct")
                    (PyBool false))
        end
      else
        Ok (dict_set session_state (lit "password_correct") (PyBool false))
  end.

(** What [check_password] reads from the session. *)
Definition session_password_correct (session_state : dict pyval)
    : option bool :=
  match session_state (lit "password_correct") with
  | Some (PyBool b) => Some b
  | Some (PyStr s) => Some (negb (str_eqb s []))
  | None => None
  end.

(** The inputs of a run of [main] on a session. *)
Definition inputs_of_session (session_state : dict pyval) (i : Inputs)
    : Inputs :=
  mkInputs (session_password_correct session_state) (api_key i)
    (use_template i) (format_template_input i) (uploaded_files i)
    (process_clicked i).

(** The session after the two text inputs of the login form are filled. *)
Definition login_form_session (username password : str) : dict pyval :=
  dict_set (dict_set dict_empty (lit "username") (PyStr username))
    (lit "password") (PyStr password).

(** ** Vocabulary of the further statements *)

(** The events of opening a PDF and rendering its pages. *)
Definition rendering_event (ev : event) : bool :=
  match ev with
  | ev_fitz_open _ | ev_get_pixmap _ _ => true
  | _ => false
  end.

(** The concrete world with one change: the page of handle 401 (the second
    page of a document of tag 4) cannot be rendered. *)
Definition world_torn_page : World :=
  mkWorld Demo.fitz_open Demo.page_count Demo.load_page
    (fun page mat =>
       match page with
       | PageHandle 401 => Raise (Exception (lit "cannot render page"))
       | _ => Demo.get_pixmap page mat
       end)
    Demo.pil_tobytes Demo.Image_open Demo.Image_save Demo.b64encode
    Demo.Anthropic Demo.messages_create Demo.to_csv.

(** The PNG bytes of an image that can be saved. *)
Definition png_of (w : World) (image : Image) : bytes :=
  match Image_save w image with
  | Ok png => png
  | Raise _ => []
  end.

(** The key of the text area of page [page_num] of the file named
    [pdf_file_name]: [f"{pdf_file.name}_{page_num}"]. *)
Definition page_area_key (pdf_file_name : str) (page_num : nat) : str :=
  pdf_file_name ++ lit "_" ++ str_of_nat page_num.

(** What the page loop logs for one page whose call returns. *)
Definition page_events (w : World) (format_template : option str)
    (client : Client) (pdf_file_name : str) (page_num : nat) (image : Image)
    : list event :=
  let n := str_of_nat page_num in
  let req := page_request w pdf_file_name format_template page_num
               (png_of w image) in
  [st_markdown (lit "**Page " ++ n ++ lit "**");
   st_image image;
   st_markdown (lit "**Extracted Text - Page " ++ n ++ lit "**");
   st_spinner (lit "Processing page " ++ n ++ lit "...");
   ev_messages_create client req;
   st_text_area (lit "Text from page " ++ n) (soft_text w client req)
     (page_area_key pdf_file_name page_num)].

Fixpoint pages_events (w : World) (format_template : option str)
    (client : Client) (pdf_file_name : str) (page_num : nat)
    (images : list Image) : list event :=
  match images with
  | [] => []
  | image :: rest =>
      page_events w format_template client pdf_file_name page_num image
      ++ pages_events w format_template client pdf_file_name (S page_num) rest
  end.

(** What one turn of the loop over the documents logs. *)
Definition file_events (w : World) (format_template : option str)
    (client : Client) (total idx : nat) (pdf_file : UploadedFile)
    : list event :=
  [status_text_text (lit "Processing " ++ name pdf_file ++ lit "...");
   progress_bar_progress (idx + 1) total;
   st_expander ([128196%N] ++ lit " " ++ name pdf_file)]
  ++ events (pdf_to_images w pdf_file)
  ++ match images_of w pdf_file with
     | Some (image :: more) =>
         st_columns 2
         :: pages_events w format_template client (name pdf_file) 1
              (image :: more)
     | Some [] | None => []
     end.

Fixpoint files_events (w : World) (format_template : option str)
    (client : Client) (total idx : nat) (files : list UploadedFile)
    : list event :=
  match files with
  | [] => []
  | pdf_file :: rest =>
      file_events w format_template client total idx pdf_file
      ++ files_events w format_template client total (S idx) rest
  end.

(** The part of a log a projection keeps. *)
Fixpoint log_map {T : Type} (pick : event -> option T) (log : list event)
    : list T :=
  match log with
  | [] => []
  | ev :: rest =>
      match pick ev with
      | Some t => t :: log_map pick rest
      | None => log_map pick rest
      end
  end.

Definition request_of (ev : event) : option Request :=
  match ev with ev_messages_create _ req => Some req | _ => None end.

Definition opened_of (ev : event) : option bytes :=
  match ev with ev_fitz_open stream => Some stream | _ => None end.

Definition progress_of (ev : event) : option (nat * nat) :=
  match ev with progress_bar_progress num den => Some (num, den) | _ => None end.

Definition area_key_of (ev : event) : option str :=
  match ev with st_text_area _ _ key => Some key | _ => None end.

(** The pages the rasterizer hands back for a file, none after a failure. *)
Definition pages_of (w : World) (pdf_file : UploadedFile) : list Image :=
  match images_of w pdf_file with
  | Some images => images
  | None => []
  end.

(** The requests of the pages of one file, in page order from page 1. *)
Definition file_requests (w : World) (format_template : option str)
    (pdf_file : UploadedFile) : list Request :=
  map (fun ni => page_request w (name pdf_file) format_template (fst ni)
                   (png_of w (snd ni)))
    (combine (seq 1 (List.length (pages_of w pdf_file))) (pages_of w pdf_file)).

(** The keys of the page text areas of one file. *)
Definition file_area_keys (w : World) (pdf_file : UploadedFile) : list str :=
  map (page_area_key (name pdf_file))
    (seq 1 (List.length (pages_of w pdf_file))).

(** What the full-text section logs for the entry of index [idx]. *)
Definition full_text_events (results : list Entry) (idx : nat)
    (result : Entry) : list event :=
  [st_expander (Filename result ++ lit " - Full Text");
   st_text_area (lit "Full text") (full_text_shown results result)
     (lit "full_" ++ str_of_nat idx)].

(** A file the rasterizer hands back with at least one page. *)
Definition has_pages (w : World) (pdf_file : UploadedFile) : bool :=
  match pages_of w pdf_file with
  | [] => false
  | _ :: _ => true
  end.

(** The events of the report section. *)
Definition report_event (ev : event) : bool :=
  match ev with
  | st_dataframe _ | st_download_button _ _ _ _ => true
  | _ => false
  end.

(** An event that neither opens a file nor belongs to the report. *)
Definition quiet_event (ev : event) : Prop :=
  opened_of ev = None /\ report_event ev = false.

(** The full stop, of which the truncation marker has three. *)
Definition dot : char := 46%N.

(** ** Streamlit's registry of widget keys

    The embedding above takes every widget call to succeed.  Streamlit
    refuses a [key] it has already seen in the run; the definitions below
    follow the same source lines with the keys in use threaded through. *)











(** ** Vocabulary of the statements on whole runs *)

(** The entry of a file in a batch where no call raises. *)
Definition expected_entries (w : World) (format_template : option str)
    (client : Client) (pdf_file : UploadedFile) : list Entry :=
  match pages_of w pdf_file with
  | [] => []
  | image :: more =>
      [mkEntry (name pdf_file) (List.length (image :: more))
         (preview
            (blocks 1
               (map (soft_text w client)
                  (file_requests w format_template pdf_file))))]
  end.

(** What the report section logs. *)
Definition report_events (w : World) (results : list Entry) : list event :=
  match results with
  | [] => []
  | _ :: _ =>
      [st_markdown (lit "## " ++ [128202%N] ++ lit " Summary Table");
       st_dataframe results;
       st_download_button ([128229%N] ++ lit " Download results as CSV")
         (to_csv w results) (lit "ocr_results.csv") (lit "text/csv");
       st_markdown (lit "## " ++ [128221%N] ++ lit " Full Extracted Texts")]
      ++ flat_map (fun ir => full_text_events results (fst ir) (snd ir))
           (combine (seq 0 (List.length results)) results)
  end.

(** A progress value or the opening of a file, whichever an event is. *)
Definition progress_or_open (ev : event) : option (nat * nat + bytes) :=
  match ev with
  | progress_bar_progress num den => Some (inl (num, den))
  | ev_fitz_open stream => Some (inr stream)
  | _ => None
  end.



(** * Properties *)

(** ** The log monad *)

Section MonadFacts.

Context {A B : Type}.

Lemma outcome_bind (m : M A) (k : A -> M B) :
  outcome (bind m k) =
  match outcome m with
  | Ok a => outcome (k a)
  | Raise e => Raise e
  end.
Proof.
  unfold outcome, bind.
  destruct m as [log [a | e]]; [ | reflexivity ].
  cbn. destruct (k a); reflexivity.
Qed.

Lemma events_bind (m : M A) (k : A -> M B) :
  events (bind m k) =
  events m ++ match outcome m with
              | Ok a => events (k a)
              | Raise _ => []
              end.
Proof.
  unfold outcome, events, bind.
  destruct m as [log [a | e]]; cbn.
  - destruct (k a); reflexivity.
  - symmetry; apply app_nil_r.
Qed.

Lemma outcome_lift (r : result A) : outcome (lift r) = r.
Proof. reflexivity. Qed.

Lemma events_lift (r : result A) : events (lift r) = [].
Proof. reflexivity. Qed.

Lemma outcome_try_except (m : M A) (h : exn -> M A) :
  outcome (try_except m h) =
  match outcome m with
  | Ok a => Ok a
  | Raise e => outcome (h e)
  end.
Proof.
  unfold outcome, try_except.
  destruct m as [log [a | e]]; cbn; [ reflexivity | ].
  destruct (h e); reflexivity.
Qed.

Lemma events_try_except (m : M A) (h : exn -> M A) :
  events (try_except m h) =
  events m ++ match outcome m with
              | Ok _ => []
              | Raise e => events (h e)
              end.
Proof.
  unfold outcome, events, try_except.
  destruct m as [log [a | e]]; cbn.
  - symmetry; apply app_nil_r.
  - destruct (h e); reflexivity.
Qed.

End MonadFacts.

Lemma outcome_emit (ev : event) : outcome (emit ev) = Ok tt.
Proof. reflexivity. Qed.

Lemma events_emit (ev : event) : events (emit ev) = [ev].
Proof. reflexivity. Qed.

Lemma outcome_ret {A} (a : A) : outcome (ret a) = Ok a.
Proof. reflexivity. Qed.

Lemma events_ret {A} (a : A) : events (ret a) = [].
Proof. reflexivity. Qed.

Lemma outcome_raise {A} (e : exn) : outcome (@raise A e) = Raise e.
Proof. reflexivity. Qed.

Lemma events_raise {A} (e : exn) : events (@raise A e) = [].
Proof. reflexivity. Qed.

(** Push [outcome] and [events] through the monad's operations. *)
Ltac mrun :=
  repeat (rewrite ?outcome_bind, ?outcome_try_except, ?outcome_lift,
            ?outcome_emit, ?outcome_ret, ?events_bind, ?events_try_except,
            ?events_lift, ?events_emit, ?events_ret, ?outcome_raise, ?events_raise;
          cbv beta iota zeta).

(** ** Python strings *)

Example str_of_nat_12 : str_of_nat 12 = lit "12".
Proof. reflexivity. Qed.

Example page_block_1 :
  page_block 1 (lit "a") = lit "

--- Page 1 ---
a".
Proof. reflexivity. Qed.

Example replace_ellipsis :
  replace ELLIPSIS [] (lit "a....b...") = lit "a.b".
Proof. reflexivity. Qed.

Example replace_empty_old :
  replace [] (lit "-") (lit "ab") = lit "-a-b-".
Proof. reflexivity. Qed.

(** At an occurrence, [replace] emits [new] and resumes after it. *)
Lemma replace_from_skip (old new : str) (k : nat) (s : str) :
  replace_from old new k s = replace_from old new 0 (skipn k s).
Proof.
  revert k. induction s as [ | c s IH ]; intros k.
  - destruct k; reflexivity.
  - destruct k as [ | k ]; [ reflexivity | ].
    cbn [replace_from skipn]. apply IH.
Qed.

Lemma replace_from_occurrence (old new s : str) :
  old <> [] -> startswith old s = true ->
  replace_from old new 0 s
  = new ++ replace_from old new 0 (skipn (len old) s).
Proof.
  intros Hold Hs. destruct s as [ | c s ].
  - destruct old; [ contradiction | discriminate ].
  - cbn [replace_from]. rewrite Hs, replace_from_skip.
    destruct old as [ | o old ]; [ contradiction | ].
    unfold len. cbn [List.length]. rewrite Nat.sub_succ, Nat.sub_0_r.
    reflexivity.
Qed.

Example free_form_without_template :
  build_prompt (lit "a.pdf - Page 1") (Some [])
  = free_form_prompt (lit "a.pdf - Page 1").
Proof. reflexivity. Qed.

(** ** Preview truncation *)

Lemma len_ELLIPSIS : len ELLIPSIS = 3.
Proof. reflexivity. Qed.

Lemma preview_short (t : str) : len t <= PREVIEW_CAP -> preview t = t.
Proof.
  intros H. unfold preview.
  destruct (Nat.ltb_spec PREVIEW_CAP (len t)); [ lia | reflexivity ].
Qed.

Lemma preview_long (t : str) :
  PREVIEW_CAP < len t -> preview t = slice_to PREVIEW_CAP t ++ ELLIPSIS.
Proof.
  intros H. unfold preview.
  destruct (Nat.ltb_spec PREVIEW_CAP (len t)); [ reflexivity | lia ].
Qed.

Lemma slice_to_app_exact (n : nat) (a b : str) :
  len a = n -> slice_to n (a ++ b) = a.
Proof.
  unfold slice_to, len. intros H. rewrite firstn_app, H, Nat.sub_diag.
  rewrite <- H at 1. rewrite firstn_all.
  destruct b; simpl; apply app_nil_r.
Qed.

Lemma preview_idempotent (t : str) : preview (preview t) = preview t.
Proof.
  destruct (Nat.le_gt_cases (len t) PREVIEW_CAP) as [Hle | Hgt].
  - rewrite !(preview_short t Hle). reflexivity.
  - rewrite (preview_long t Hgt).
    assert (Hcut : len (slice_to PREVIEW_CAP t) = PREVIEW_CAP).
    { unfold slice_to, len in *. rewrite length_firstn. lia. }
    rewrite preview_long.
    + rewrite (slice_to_app_exact _ _ _ Hcut). reflexivity.
    + unfold len in *. rewrite length_app. fold (len ELLIPSIS).
      rewrite len_ELLIPSIS. lia.
Qed.

(** C4. The preview of a text of at most 500 characters is the text; of a
    longer text it is its first 500 characters followed by ["..."]; and
    taking the preview of a preview changes nothing. *)
Theorem preview_projection (t : str) :
  (len t <= 500 -> preview t = t) /\
  (500 < len t -> preview t = slice_to 500 t ++ lit "...") /\
  preview (preview t) = preview t.
Proof.
  split; [ | split ].
  - apply preview_short.
  - apply preview_long.
  - apply preview_idempotent.
Qed.

Lemma preview_projection_witness :
  len (repeat 97%N 501) = 501 /\
  preview (repeat 97%N 501) = repeat 97%N 500 ++ lit "..." /\
  len (lit "abc") = 3 /\
  preview (lit "abc") = lit "abc".
Proof.
  split; [ reflexivity | ].
  split.
  - destruct (preview_projection (repeat 97%N 501)) as [_ [Hlong _]].
    rewrite Hlong; [ reflexivity | vm_compute; lia ].
  - split; [ reflexivity | ].
    destruct (preview_projection (lit "abc")) as [Hshort _].
    apply Hshort. vm_compute. lia.
Defined.

(** ** The rasterizer *)

Section Rasterizer.

Variable w : World.
Variable doc : Document.
Variables (page : nat -> Page) (pix : nat -> Pixmap) (data : nat -> bytes)
          (img : nat -> Image).

Lemma pdf_to_images_loop_renders (page_nums : list nat) (images : list Image) :
  (forall i, In i page_nums -> renders w doc page pix data img i) ->
  outcome (pdf_to_images_loop w doc page_nums images)
    = Ok (images ++ map img page_nums) /\
  events (pdf_to_images_loop w doc page_nums images)
    = map (fun i => ev_get_pixmap (page i) (mkMatrix 2 2)) page_nums.
Proof.
  revert images.
  induction page_nums as [ | i rest IH ]; intros images Hall.
  - simpl. rewrite app_nil_r. split; reflexivity.
  - destruct (Hall i (or_introl eq_refl)) as (Hload & Hpix & Hpng & Himg).
    destruct (IH (images ++ [img i])) as [IHo IHe].
    { intros j Hj. apply Hall. right. exact Hj. }
    simpl pdf_to_images_loop. mrun.
    rewrite Hload; mrun. rewrite Hpix; mrun. rewrite Hpng; mrun.
    rewrite Himg; mrun.
    rewrite IHo, IHe, <- app_assoc. split; reflexivity.
Qed.

End Rasterizer.

(** C7. For a valid PDF of [P] pages the rasterizer returns exactly [P]
    images, the image of page [i] at position [i], each page rendered with
    the 2x matrix; with no page it returns the empty list and shows no
    error. *)
Theorem pdf_to_images_valid (w : World) (pdf_file : UploadedFile)
    (doc : Document) (page : nat -> Page) (pix : nat -> Pixmap)
    (data : nat -> bytes) (img : nat -> Image) :
  valid_pdf w (read pdf_file) doc page pix data img ->
  let P := page_count w doc in
  outcome (pdf_to_images w pdf_file) = Ok (Some (map img (seq 0 P))) /\
  List.length (map img (seq 0 P)) = P /\
  (forall i, i < P -> nth_error (map img (seq 0 P)) i = Some (img i)) /\
  events (pdf_to_images w pdf_file)
    = ev_fitz_open (read pdf_file)
      :: map (fun i => ev_get_pixmap (page i) (mkMatrix 2 2)) (seq 0 P)
      ++ [ev_close doc] /\
  (P = 0 -> outcome (pdf_to_images w pdf_file) = Ok (Some [])).
Proof.
  intros [Hopen Hpages] P.
  destruct (pdf_to_images_loop_renders w doc page pix data img (seq 0 P) [])
    as [Ho He].
  { intros i Hi. apply in_seq in Hi. apply Hpages. fold P. lia. }
  assert (Hout : outcome (pdf_to_images w pdf_file)
                 = Ok (Some (map img (seq 0 P)))).
  { unfold pdf_to_images. mrun. rewrite Hopen. mrun. fold P. rewrite Ho.
    mrun. reflexivity. }
  split; [ exact Hout | ].
  split; [ rewrite length_map, length_seq; reflexivity | ].
  split.
  { intros i Hi. rewrite nth_error_map, nth_error_seq.
    destruct (Nat.ltb_spec i P); [ reflexivity | lia ]. }
  split.
  { unfold pdf_to_images. mrun. rewrite Hopen. mrun. fold P. rewrite Ho, He.
    mrun. simpl. rewrite app_nil_r. reflexivity. }
  intros HP. rewrite Hout, HP. reflexivity.
Qed.

Lemma pdf_to_images_valid_witness :
  outcome (pdf_to_images Demo.world (Demo.pdf "a.pdf" 1 2))
    = Ok (Some [ImageHandle 100; ImageHandle 101]) /\
  outcome (pdf_to_images Demo.world (Demo.pdf "empty.pdf" 1 0)) = Ok (Some []).
Proof.
  split.
  - refine (proj1 (pdf_to_images_valid Demo.world (Demo.pdf "a.pdf" 1 2)
             (DocumentHandle 102) (fun i => PageHandle (100 + N.of_nat i))
             (fun i => PixmapHandle (100 + N.of_nat i))
             (fun i => [100 + N.of_nat i]%N)
             (fun i => ImageHandle (100 + N.of_nat i)) _)).
    split; [ reflexivity | ].
    intros i Hi. repeat split; reflexivity.
  - refine (proj1 (pdf_to_images_valid Demo.world (Demo.pdf "empty.pdf" 1 0)
             (DocumentHandle 100) (fun i => PageHandle (100 + N.of_nat i))
             (fun i => PixmapHandle (100 + N.of_nat i))
             (fun i => [100 + N.of_nat i]%N)
             (fun i => ImageHandle (100 + N.of_nat i)) _)).
    split; [ reflexivity | ].
    intros i Hi. repeat split; reflexivity.
Defined.

(** ** The extraction client *)

Lemma extract_text_with_claude_outcome (w : World) (image : Image)
    (api_key filename : str) (structured_format : option str) :
  outcome (extract_text_with_claude w image api_key filename structured_format)
  = match Anthropic w api_key with
    | Raise e => Raise e
    | Ok client =>
        match Image_save w image with
        | Raise e => Raise e
        | Ok png =>
            let req := ocr_request (build_prompt filename structured_format)
                         (b64encode w png) in
            match messages_create w client req with
            | Raise e => Ok (lit "Error processing image: " ++ str_of_exn e)
            | Ok response =>
                match content response with
                | [] => Ok (lit "Error processing image: " ++ str_of_exn IndexError)
                | block :: _ => Ok (block_text block)
                end
            end
        end
    end.
Proof.
  unfold extract_text_with_claude, encode_image. mrun.
  destruct (Anthropic w api_key) as [client | e]; [ | reflexivity ].
  mrun. destruct (Image_save w image) as [png | e]; [ | reflexivity ].
  mrun. destruct (messages_create w client _) as [response | e]; mrun.
  - destruct (content response); mrun; reflexivity.
  - reflexivity.
Qed.

Lemma extract_text_with_claude_events (w : World) (image : Image)
    (api_key filename : str) (structured_format : option str)
    (client : Client) (png : bytes) :
  Anthropic w api_key = Ok client ->
  Image_save w image = Ok png ->
  events (extract_text_with_claude w image api_key filename structured_format)
  = [ev_messages_create client
       (ocr_request (build_prompt filename structured_format) (b64encode w png))].
Proof.
  intros Hc Hs. unfold extract_text_with_claude, encode_image. mrun.
  rewrite Hc. mrun. rewrite Hs. mrun.
  destruct (messages_create w client _) as [response | e]; mrun.
  - destruct (content response); mrun; reflexivity.
  - reflexivity.
Qed.

(** C3.  For a page image of the pipeline (one that is saved as PNG) and
    a client object built from the credential, the call never raises,
    whatever the request does: it returns the text of the first content
    block, or ["Error processing image: "] followed by the description of
    the failure of the request (transport, authentication, model side) or
    of reading its response. *)
Theorem extract_text_with_claude_soft_fail (w : World) (image : Image)
    (api_key filename : str) (structured_format : option str)
    (client : Client) (png : bytes) :
  Anthropic w api_key = Ok client ->
  Image_save w image = Ok png ->
  let call :=
    extract_text_with_claude w image api_key filename structured_format in
  let req :=
    ocr_request (build_prompt filename structured_format) (b64encode w png) in
  (exists t, outcome call = Ok t) /\
  (forall e, messages_create w client req = Raise e ->
     outcome call = Ok (lit "Error processing image: " ++ str_of_exn e)) /\
  (forall response,
     messages_create w client req = Ok response ->
     content response = [] ->
     outcome call = Ok (lit "Error processing image: list index out of range")) /\
  (forall response block more,
     messages_create w client req = Ok response ->
     content response = block :: more ->
     outcome call = Ok (block_text block)).
Proof.
  intros Hc Hs call req. subst call.
  rewrite extract_text_with_claude_outcome, Hc, Hs. cbv zeta. fold req.
  split.
  { destruct (messages_create w client req) as [response | e].
    - destruct (content response); eexists; reflexivity.
    - eexists; reflexivity. }
  split; [ intros e He; rewrite He; reflexivity | ].
  split.
  - intros response Hr Hcont. rewrite Hr, Hcont. reflexivity.
  - intros response block more Hr Hcont. rewrite Hr, Hcont. reflexivity.
Qed.

Lemma extract_text_with_claude_soft_fail_witness :
  outcome (extract_text_with_claude Demo.world (ImageHandle 901)
             (lit "sk-test") (lit "b.pdf - Page 2") None)
  = Ok (lit "Error processing image: Connection error.").
Proof.
  refine (proj1 (proj2 (extract_text_with_claude_soft_fail Demo.world
            (ImageHandle 901) (lit "sk-test") (lit "b.pdf - Page 2") None
            (ClientHandle 0) [901%N] _ _)) (Exception (lit "Connection error.")) _);
    reflexivity.
Defined.

(** The encoding runs before the guarded request: an image that cannot be
    saved as PNG makes the call raise. *)
Lemma extract_text_with_claude_raises :
  outcome (extract_text_with_claude Demo.world (ImageHandle 800)
             (lit "sk-test") (lit "c.pdf - Page 1") None)
  = Raise (Exception (lit "cannot write mode CMYK as PNG")) /\
  ~ (exists t,
       outcome (extract_text_with_claude Demo.world (ImageHandle 800)
                  (lit "sk-test") (lit "c.pdf - Page 1") None) = Ok t).
Proof.
  assert (H : outcome (extract_text_with_claude Demo.world (ImageHandle 800)
                         (lit "sk-test") (lit "c.pdf - Page 1") None)
              = Raise (Exception (lit "cannot write mode CMYK as PNG"))).
  { vm_compute. reflexivity. }
  split; [ exact H | ].
  intros [t Ht]. rewrite H in Ht. discriminate.
Qed.

(** ** Counting page markers *)

Section Occurrences.

Variable p : str.
Hypothesis p_no_nl : ~ In nl p.

Lemma startswith_before_nl (a r : str) :
  startswith p (a ++ nl :: r) = startswith p a.
Proof.
  revert a. induction p as [ | c p' IH ]; intros a.
  - destruct a; reflexivity.
  - assert (Hc : c <> nl) by (intros ->; apply p_no_nl; left; reflexivity).
    assert (Hp' : ~ In nl p') by (intros Hin; apply p_no_nl; right; exact Hin).
    destruct a as [ | b a' ]; simpl.
    + destruct (N.eqb_spec c nl); [ contradiction | reflexivity ].
    + rewrite (IH Hp'). reflexivity.
Qed.

Lemma occurrences_before_nl (a r : str) :
  occurrences p (a ++ nl :: r) = occurrences p a + occurrences p (nl :: r).
Proof.
  induction a as [ | c a' IH ].
  - reflexivity.
  - change ((c :: a') ++ nl :: r) with (c :: (a' ++ nl :: r)).
    change (occurrences p (c :: (a' ++ nl :: r)))
      with ((if startswith p (c :: (a' ++ nl :: r)) then 1 else 0)
            + occurrences p (a' ++ nl :: r)).
    change (c :: (a' ++ nl :: r)) with ((c :: a') ++ nl :: r).
    rewrite startswith_before_nl, IH. simpl. lia.
Qed.

End Occurrences.

Lemma digits_of_uint (u : Decimal.uint) :
  Forall (fun c : char => c <> 45%N) (lit (NilEmpty.string_of_uint u)).
Proof.
  induction u; simpl; try (constructor; [ discriminate | assumption ]).
  constructor.
Qed.

Lemma str_of_nat_no_dash (n : nat) :
  Forall (fun c : char => c <> 45%N) (str_of_nat n).
Proof. apply digits_of_uint. Qed.

Lemma MARKER_START_no_nl : ~ In nl MARKER_START.
Proof.
  vm_compute. intros H.
  repeat (destruct H as [H | H]; [ discriminate H | ]). exact H.
Qed.

Lemma occurrences_skip_no_dash (d r : str) :
  Forall (fun c : char => c <> 45%N) d ->
  occurrences MARKER_START (d ++ r) = occurrences MARKER_START r.
Proof.
  induction 1 as [ | c d' Hc _ IH ]; [ reflexivity | ].
  simpl app.
  change (occurrences MARKER_START (c :: d' ++ r))
    with ((if startswith MARKER_START (c :: d' ++ r) then 1 else 0)
          + occurrences MARKER_START (d' ++ r)).
  rewrite IH.
  change (startswith MARKER_START (c :: d' ++ r))
    with (N.eqb 45 c && startswith (lit "-- Page ") (d' ++ r)).
  destruct (N.eqb_spec 45 c) as [E | _]; [ symmetry in E; contradiction | ].
  reflexivity.
Qed.

Lemma occurrences_page_marker (page_num : nat) :
  occurrences MARKER_START (page_marker page_num) = 1.
Proof.
  unfold page_marker.
  change (lit "--- Page ") with [45; 45; 45; 32; 80; 97; 103; 101; 32]%N.
  change MARKER_START with [45; 45; 45; 32; 80; 97; 103; 101; 32]%N.
  cbn [app occurrences startswith N.eqb Pos.eqb andb Nat.add].
  change [45; 45; 45; 32; 80; 97; 103; 101; 32]%N with MARKER_START.
  rewrite occurrences_skip_no_dash by apply str_of_nat_no_dash.
  reflexivity.
Qed.

Lemma occurrences_page_block (page_num : nat) (t rest : str) :
  rest = [] \/ (exists r, rest = nl :: r) ->
  occurrences MARKER_START (page_block page_num t ++ rest)
  = 1 + occurrences MARKER_START t + occurrences MARKER_START rest.
Proof.
  intros Hrest. unfold page_block.
  assert (Ht : occurrences MARKER_START (t ++ rest)
               = occurrences MARKER_START t + occurrences MARKER_START rest).
  { destruct Hrest as [-> | [r ->]].
    - rewrite app_nil_r. simpl. lia.
    - apply occurrences_before_nl, MARKER_START_no_nl. }
  change (([nl; nl] ++ page_marker page_num ++ [nl] ++ t) ++ rest)
    with (nl :: nl :: ((page_marker page_num ++ nl :: t) ++ rest)).
  rewrite <- app_assoc. change ((nl :: t) ++ rest) with (nl :: (t ++ rest)).
  change (occurrences MARKER_START
            (nl :: nl :: page_marker page_num ++ nl :: t ++ rest))
    with (occurrences MARKER_START (page_marker page_num ++ nl :: t ++ rest)).
  rewrite (occurrences_before_nl MARKER_START MARKER_START_no_nl).
  rewrite occurrences_page_marker.
  change (occurrences MARKER_START (nl :: t ++ rest))
    with (occurrences MARKER_START (t ++ rest)).
  rewrite Ht. lia.
Qed.

Lemma blocks_head (page_num : nat) (texts : list str) :
  blocks page_num texts = [] \/ (exists r, blocks page_num texts = nl :: r).
Proof.
  destruct texts as [ | t rest ]; [ left; reflexivity | right ].
  simpl. unfold page_block. eexists. reflexivity.
Qed.

Lemma occurrences_blocks (page_num : nat) (texts : list str) :
  occurrences MARKER_START (blocks page_num texts)
  = List.length texts + list_sum (map (occurrences MARKER_START) texts).
Proof.
  revert page_num. induction texts as [ | t rest IH ]; intros page_num.
  - reflexivity.
  - change (blocks page_num (t :: rest))
      with (page_block page_num t ++ blocks (S page_num) rest).
    rewrite occurrences_page_block by apply blocks_head.
    rewrite IH. simpl. lia.
Qed.

Lemma blocks_concat (page_num : nat) (texts : list str) :
  blocks page_num texts
  = List.concat (map (fun nt => page_block (fst nt) (snd nt))
              (combine (seq page_num (List.length texts)) texts)).
Proof.
  revert page_num. induction texts as [ | t rest IH ]; intros page_num.
  - reflexivity.
  - simpl. rewrite IH. reflexivity.
Qed.

(** ** The loop over the pages of one document *)

Section PagesLoop.

Variable w : World.
Variables (api_key pdf_file_name : str) (format_template : option str).

Lemma main_pages_loop_outcome (page_num : nat) (images : list Image)
    (pdf_text : str) :
  outcome (main_pages_loop w api_key pdf_file_name format_template page_num
             images pdf_text)
  = match page_texts w api_key pdf_file_name format_template page_num images with
    | Ok texts => Ok (pdf_text ++ blocks page_num texts)
    | Raise e => Raise e
    end.
Proof.
  revert page_num pdf_text.
  induction images as [ | image rest IH ]; intros page_num pdf_text.
  - simpl. mrun. rewrite app_nil_r. reflexivity.
  - simpl main_pages_loop. mrun. simpl page_texts. unfold extracted.
    destruct (outcome (extract_text_with_claude w image api_key _ _))
      as [t | e]; [ | reflexivity ].
    mrun. rewrite IH.
    destruct (page_texts w api_key pdf_file_name format_template (S page_num) rest)
      as [ts | e]; [ | reflexivity ].
    simpl blocks. rewrite <- app_assoc. reflexivity.
Qed.

Lemma page_texts_length (page_num : nat) (images : list Image)
    (texts : list str) :
  page_texts w api_key pdf_file_name format_template page_num images = Ok texts ->
  List.length texts = List.length images.
Proof.
  revert page_num texts.
  induction images as [ | image rest IH ]; intros page_num texts; simpl.
  - intros H. injection H as <-. reflexivity.
  - destruct (extracted w api_key pdf_file_name format_template page_num image)
      as [t | e]; [ | discriminate ].
    destruct (page_texts w api_key pdf_file_name format_template (S page_num) rest)
      as [ts | e] eqn:E; [ | discriminate ].
    intros H. injection H as <-. simpl. f_equal. exact (IH _ _ E).
Qed.

End PagesLoop.

(** C2, as the code has it.  The text of a document of [P] pages is the
    concatenation, for [n] from 1 to [P] in this order, of two line feeds,
    the marker ["--- Page n ---"], a line feed and the text of page [n]:
    one marker in front of every page, the first included.  It holds [P]
    marker starts besides those the page texts bring themselves. *)
Theorem pdf_text_markers (w : World) (api_key pdf_file_name : str)
    (format_template : option str) (images : list Image) (pdf_text : str) :
  outcome (main_pages_loop w api_key pdf_file_name format_template 1 images [])
    = Ok pdf_text ->
  let P := List.length images in
  exists texts,
    page_texts w api_key pdf_file_name format_template 1 images = Ok texts /\
    List.length texts = P /\
    pdf_text = List.concat (map (fun nt => [nl; nl] ++ page_marker (fst nt)
                                           ++ [nl] ++ snd nt)
                              (combine (seq 1 P) texts)) /\
    occurrences MARKER_START pdf_text
    = P + list_sum (map (occurrences MARKER_START) texts).
Proof.
  intros H P. rewrite main_pages_loop_outcome in H.
  destruct (page_texts w api_key pdf_file_name format_template 1 images)
    as [texts | e] eqn:E; [ | discriminate ].
  injection H as <-. exists texts.
  pose proof (page_texts_length _ _ _ _ _ _ _ E) as Hlen.
  split; [ reflexivity | ]. split; [ exact Hlen | ].
  simpl app at 1. split.
  - rewrite blocks_concat, Hlen. reflexivity.
  - rewrite occurrences_blocks, Hlen. reflexivity.
Qed.

Lemma pdf_text_markers_witness :
  exists texts,
    page_texts Demo.world (lit "sk-test") (lit "a.pdf") None 1
      [ImageHandle 100; ImageHandle 101] = Ok texts /\
    List.length texts = 2 /\
    lit "

--- Page 1 ---
text 100

--- Page 2 ---
text 101"
    = List.concat (map (fun nt => [nl; nl] ++ page_marker (fst nt)
                                  ++ [nl] ++ snd nt)
                     (combine (seq 1 2) texts)) /\
    occurrences MARKER_START (lit "

--- Page 1 ---
text 100

--- Page 2 ---
text 101")
    = 2 + list_sum (map (occurrences MARKER_START) texts).
Proof.
  apply (pdf_text_markers Demo.world (lit "sk-test") (lit "a.pdf") None
           [ImageHandle 100; ImageHandle 101]).
  vm_compute. reflexivity.
Defined.

(** C2 as stated fails: the text of a one-page document already holds one
    marker, not none. *)
Lemma pdf_text_one_page_has_marker :
  outcome (main_pages_loop Demo.world (lit "sk-test") (lit "a.pdf") None 1
             [ImageHandle 100] [])
  = Ok (lit "

--- Page 1 ---
text 100") /\
  occurrences MARKER_START (lit "

--- Page 1 ---
text 100") = 1 /\
  1 <> List.length [ImageHandle 100] - 1.
Proof.
  split; [ vm_compute; reflexivity | ].
  split; [ vm_compute; reflexivity | ].
  simpl. discriminate.
Qed.

(** ** The loop over the documents *)

Lemma bind_assoc {A B C} (m : M A) (f : A -> M B) (g : B -> M C) :
  bind (bind m f) g = bind m (fun a => bind (f a) g).
Proof.
  unfold bind. destruct m as [log [a | e]]; [ | reflexivity ].
  destruct (f a) as [log1 [b | e]]; [ | reflexivity ].
  destruct (g b) as [log2 r]. rewrite app_assoc. reflexivity.
Qed.

Lemma bind_ext {A B} (m : M A) (f g : A -> M B) :
  (forall a, f a = g a) -> bind m f = bind m g.
Proof.
  intros H. unfold bind. destruct m as [log [a | e]]; [ | reflexivity ].
  rewrite H. reflexivity.
Qed.

Lemma bind_ret_l {A B} (a : A) (f : A -> M B) : bind (ret a) f = f a.
Proof. unfold bind, ret. destruct (f a). reflexivity. Qed.

Lemma pdf_to_images_outcome (w : World) (pdf_file : UploadedFile) :
  outcome (pdf_to_images w pdf_file) = Ok (images_of w pdf_file).
Proof.
  unfold images_of.
  assert (H : exists r, outcome (pdf_to_images w pdf_file) = Ok r).
  { unfold pdf_to_images. mrun.
    destruct (fitz_open w (read pdf_file)) as [doc | e]; mrun.
    - destruct (outcome (pdf_to_images_loop w doc _ _)); mrun; eexists;
        reflexivity.
    - eexists; reflexivity. }
  destruct H as [r ->]. reflexivity.
Qed.

Section FilesLoop.

Variable w : World.
Variables (api_key : str) (format_template : option str).

Lemma main_file_body_outcome (total idx : nat) (pdf_file : UploadedFile)
    (results : list Entry) :
  outcome (main_file_body w api_key format_template total idx pdf_file results)
  = match file_entries w api_key format_template pdf_file with
    | Ok entries => Ok (results ++ entries)
    | Raise e => Raise e
    end.
Proof.
  unfold main_file_body, file_entries. mrun.
  rewrite pdf_to_images_outcome.
  destruct (images_of w pdf_file) as [[ | image more] | ]; mrun;
    rewrite ?app_nil_r; try reflexivity.
  rewrite main_pages_loop_outcome.
  destruct (page_texts w api_key (name pdf_file) format_template 1 (image :: more));
    mrun; reflexivity.
Qed.

Lemma main_files_loop_outcome (total idx : nat) (files : list UploadedFile)
    (results : list Entry) :
  outcome (main_files_loop w api_key format_template total idx files results)
  = run_files w api_key format_template files results.
Proof.
  revert idx results.
  induction files as [ | pdf_file rest IH ]; intros idx results.
  - reflexivity.
  - simpl. mrun. rewrite main_file_body_outcome.
    destruct (file_entries w api_key format_template pdf_file);
      [ apply IH | reflexivity ].
Qed.

Lemma main_files_loop_app (total idx : nat) (l1 l2 : list UploadedFile)
    (results : list Entry) :
  main_files_loop w api_key format_template total idx (l1 ++ l2) results
  = bind (main_files_loop w api_key format_template total idx l1 results)
      (main_files_loop w api_key format_template total
         (idx + List.length l1) l2).
Proof.
  revert idx results.
  induction l1 as [ | f l1 IH ]; intros idx results.
  - simpl. rewrite bind_ret_l, Nat.add_0_r. reflexivity.
  - simpl. rewrite bind_assoc. apply bind_ext. intros r.
    rewrite IH. rewrite <- Nat.add_succ_comm. reflexivity.
Qed.

Lemma run_files_app (l1 l2 : list UploadedFile) (results : list Entry) :
  run_files w api_key format_template (l1 ++ l2) results
  = match run_files w api_key format_template l1 results with
    | Ok r => run_files w api_key format_template l2 r
    | Raise e => Raise e
    end.
Proof.
  revert results. induction l1 as [ | f l1 IH ]; intros results; simpl.
  - reflexivity.
  - destruct (file_entries w api_key format_template f);
      [ apply IH | reflexivity ].
Qed.

(** A file that adds no entry can be taken out of the batch without
    changing the report. *)
Lemma run_files_skip (before after : list UploadedFile) (f : UploadedFile)
    (results : list Entry) :
  file_entries w api_key format_template f = Ok [] ->
  run_files w api_key format_template (before ++ f :: after) results
  = run_files w api_key format_template (before ++ after) results.
Proof.
  intros Hf. rewrite !run_files_app.
  destruct (run_files w api_key format_template before results) as [r | e];
    [ | reflexivity ].
  simpl. rewrite Hf, app_nil_r. reflexivity.
Qed.

(** The log of a batch: what the files before [f] log, then [f], then the
    files after it, which start from the results reached so far. *)
Lemma main_files_loop_events_split (total idx : nat)
    (before after : list UploadedFile) (f : UploadedFile)
    (results r : list Entry) :
  outcome (main_files_loop w api_key format_template total idx before results)
    = Ok r ->
  events (main_files_loop w api_key format_template total idx
            (before ++ f :: after) results)
  = events (main_files_loop w api_key format_template total idx before results)
    ++ events (main_file_body w api_key format_template total
                 (idx + List.length before) f r)
    ++ match outcome (main_file_body w api_key format_template total
                        (idx + List.length before) f r) with
       | Ok r' =>
           events (main_files_loop w api_key format_template total
                     (S (idx + List.length before)) after r')
       | Raise _ => []
       end.
Proof.
  intros Hb. rewrite main_files_loop_app. mrun. rewrite Hb.
  simpl main_files_loop. mrun. reflexivity.
Qed.

End FilesLoop.

(** ** Documents that add no entry *)

Section SkippedFile.

Variable w : World.
Variables (api_key : str) (format_template : option str).
Variable f : UploadedFile.
Hypothesis f_skipped : file_entries w api_key format_template f = Ok [].

Lemma skipped_file_outcome (total idx total' idx' : nat)
    (before after : list UploadedFile) (results : list Entry) :
  outcome (main_files_loop w api_key format_template total idx
             (before ++ f :: after) results)
  = outcome (main_files_loop w api_key format_template total' idx'
               (before ++ after) results).
Proof.
  rewrite !main_files_loop_outcome. apply run_files_skip. exact f_skipped.
Qed.

Lemma skipped_file_events (total idx : nat)
    (before after : list UploadedFile) (results r : list Entry) :
  outcome (main_files_loop w api_key format_template total idx before results)
    = Ok r ->
  events (main_files_loop w api_key format_template total idx
            (before ++ f :: after) results)
  = events (main_files_loop w api_key format_template total idx before results)
    ++ events (main_file_body w api_key format_template total
                 (idx + List.length before) f r)
    ++ events (main_files_loop w api_key format_template total
                 (S (idx + List.length before)) after r).
Proof.
  intros Hb.
  rewrite (main_files_loop_events_split w api_key format_template total idx
             before after f results r Hb).
  rewrite main_file_body_outcome, f_skipped, app_nil_r. reflexivity.
Qed.

End SkippedFile.

Lemma images_of_parse_failure (w : World) (f : UploadedFile) (e : exn) :
  fitz_open w (read f) = Raise e -> images_of w f = None.
Proof.
  intros H. unfold images_of, pdf_to_images. mrun. rewrite H. mrun.
  reflexivity.
Qed.

Lemma images_of_no_page (w : World) (f : UploadedFile) (doc : Document) :
  fitz_open w (read f) = Ok doc -> page_count w doc = 0 ->
  images_of w f = Some [].
Proof.
  intros H H0. unfold images_of, pdf_to_images. mrun. rewrite H. mrun.
  rewrite H0. simpl. mrun. reflexivity.
Qed.

(** C8. A file whose bytes do not open as a PDF gets an error message in
    its own expander and adds no entry; the report of the batch is the
    report of the batch without it, and the files after it are processed
    from the results reached before it. *)
Theorem parse_failure_isolated (w : World) (api_key : str)
    (format_template : option str) (f : UploadedFile) (e : exn) :
  fitz_open w (read f) = Raise e ->
  (forall total idx results,
     outcome (main_file_body w api_key format_template total idx f results)
       = Ok results /\
     events (main_file_body w api_key format_template total idx f results)
       = [status_text_text (lit "Processing " ++ name f ++ lit "...");
          progress_bar_progress (idx + 1) total;
          st_expander ([128196%N] ++ lit " " ++ name f);
          ev_fitz_open (read f);
          st_error (lit "Error converting PDF to images: " ++ str_of_exn e)]) /\
  (forall total idx total' idx' before after results,
     outcome (main_files_loop w api_key format_template total idx
                (before ++ f :: after) results)
     = outcome (main_files_loop w api_key format_template total' idx'
                  (before ++ after) results)) /\
  (forall total idx before after results r,
     outcome (main_files_loop w api_key format_template total idx before results)
       = Ok r ->
     events (main_files_loop w api_key format_template total idx
               (before ++ f :: after) results)
     = events (main_files_loop w api_key format_template total idx before results)
       ++ events (main_file_body w api_key format_template total
                    (idx + List.length before) f r)
       ++ events (main_files_loop w api_key format_template total
                    (S (idx + List.length before)) after r)).
Proof.
  intros Hopen.
  assert (Hskip : file_entries w api_key format_template f = Ok []).
  { unfold file_entries. rewrite (images_of_parse_failure w f e Hopen).
    reflexivity. }
  split; [ | split ].
  - intros total idx results. split.
    + rewrite main_file_body_outcome, Hskip, app_nil_r. reflexivity.
    + unfold main_file_body. mrun.
      rewrite pdf_to_images_outcome, (images_of_parse_failure w f e Hopen).
      unfold pdf_to_images. mrun. rewrite Hopen. mrun. reflexivity.
  - intros. apply skipped_file_outcome. exact Hskip.
  - intros. apply skipped_file_events; assumption.
Qed.

(** C9. A PDF that opens with no page adds no entry and shows no message;
    the report of the batch is the report of the batch without it, and the
    files after it are processed from the results reached before it. *)
Theorem zero_page_pdf_skipped (w : World) (api_key : str)
    (format_template : option str) (f : UploadedFile) (doc : Document) :
  fitz_open w (read f) = Ok doc ->
  page_count w doc = 0 ->
  outcome (pdf_to_images w f) = Ok (Some []) /\
  (forall total idx results,
     outcome (main_file_body w api_key format_template total idx f results)
       = Ok results /\
     events (main_file_body w api_key format_template total idx f results)
       = [status_text_text (lit "Processing " ++ name f ++ lit "...");
          progress_bar_progress (idx + 1) total;
          st_expander ([128196%N] ++ lit " " ++ name f);
          ev_fitz_open (read f);
          ev_close doc]) /\
  (forall total idx total' idx' before after results,
     outcome (main_files_loop w api_key format_template total idx
                (before ++ f :: after) results)
     = outcome (main_files_loop w api_key format_template total' idx'
                  (before ++ after) results)) /\
  (forall total idx before after results r,
     outcome (main_files_loop w api_key format_template total idx before results)
       = Ok r ->
     events (main_files_loop w api_key format_template total idx
               (before ++ f :: after) results)
     = events (main_files_loop w api_key format_template total idx before results)
       ++ events (main_file_body w api_key format_template total
                    (idx + List.length before) f r)
       ++ events (main_files_loop w api_key format_template total
                    (S (idx + List.length before)) after r)).
Proof.
  intros Hopen Hzero.
  pose proof (images_of_no_page w f doc Hopen Hzero) as Himg.
  assert (Hskip : file_entries w api_key format_template f = Ok []).
  { unfold file_entries. rewrite Himg. reflexivity. }
  split; [ rewrite pdf_to_images_outcome, Himg; reflexivity | ].
  split; [ | split ].
  - intros total idx results. split.
    + rewrite main_file_body_outcome, Hskip, app_nil_r. reflexivity.
    + unfold main_file_body. mrun. rewrite pdf_to_images_outcome, Himg.
      unfold pdf_to_images. mrun. rewrite Hopen. mrun. rewrite Hzero.
      simpl. mrun. reflexivity.
  - intros. apply skipped_file_outcome. exact Hskip.
  - intros. apply skipped_file_events; assumption.
Qed.

(** ** The full-text view *)

Lemma str_eqb_eq (a b : str) : str_eqb a b = true <-> a = b.
Proof.
  unfold str_eqb. destruct (list_eq_dec N.eq_dec a b); split; intros H;
    try reflexivity; try assumption; try discriminate; contradiction.
Qed.

Lemma next_extracted_text_first (before after : list Entry) (first : Entry) :
  (forall r, In r before -> Filename r <> Filename first) ->
  next_extracted_text (before ++ first :: after) (Filename first)
  = Extracted_Text first.
Proof.
  intros Hnone. unfold next_extracted_text.
  induction before as [ | r before IH ]; simpl.
  - destruct (str_eqb (Filename first) (Filename first)) eqn:E;
      [ reflexivity | ].
    assert (H : str_eqb (Filename first) (Filename first) = true)
      by (apply str_eqb_eq; reflexivity).
    rewrite H in E. discriminate.
  - destruct (str_eqb (Filename r) (Filename first)) eqn:E.
    + apply str_eqb_eq in E. exfalso. apply (Hnone r); [ left; reflexivity | exact E ].
    + apply IH. intros r' Hr'. apply Hnone. right. exact Hr'.
Qed.

Lemma main_full_text_loop_nth (results rest : list Entry) (idx j : nat)
    (result : Entry) :
  nth_error rest j = Some result ->
  nth_error (events (main_full_text_loop results idx rest)) (2 * j + 1)
  = Some (st_text_area (lit "Full text") (full_text_shown results result)
            (lit "full_" ++ str_of_nat (idx + j))).
Proof.
  revert idx j. induction rest as [ | r rest IH ]; intros idx j Hj.
  - destruct j; discriminate.
  - simpl main_full_text_loop. mrun.
    destruct j as [ | j ].
    + injection Hj as ->. rewrite Nat.add_0_r. reflexivity.
    + simpl in Hj. replace (2 * S j + 1) with (S (S (2 * j + 1))) by lia.
      cbn [app nth_error]. rewrite (IH (S idx) j Hj), Nat.add_succ_comm.
      reflexivity.
Qed.

Lemma main_full_text_loop_outcome (results rest : list Entry) (idx : nat) :
  outcome (main_full_text_loop results idx rest) = Ok tt.
Proof.
  revert idx. induction rest as [ | r rest IH ]; intros idx.
  - reflexivity.
  - simpl. mrun. apply IH.
Qed.

Lemma main_report_outcome (w : World) (results : list Entry) :
  outcome (main_report w results) = Ok tt.
Proof.
  destruct results as [ | r results ]; [ reflexivity | ].
  unfold main_report. mrun. apply main_full_text_loop_outcome.
Qed.

Lemma replace_from_nil_len (old : str) (k : nat) (s : str) :
  len (replace_from old [] k s) <= len s.
Proof.
  revert k. induction s as [ | c s IH ]; intros k.
  - destruct k; apply Nat.le_refl.
  - destruct k as [ | k ]; cbn [replace_from].
    + destruct (startswith old (c :: s)).
      * cbn [app]. specialize (IH (len old - 1)). unfold len in *.
        cbn [List.length]. lia.
      * specialize (IH 0). unfold len in *. cbn [List.length]. lia.
    + specialize (IH k). unfold len in *. cbn [List.length]. lia.
Qed.

(** Removing an [old] that occurs shortens the text by its length at
    least. *)
Lemma replace_from_nil_shrinks (old s : str) :
  old <> [] -> 0 < occurrences old s ->
  len (replace_from old [] 0 s) + len old <= len s.
Proof.
  intros Hold. induction s as [ | c s IH ]; intros Hocc.
  - cbn in Hocc. lia.
  - cbn [occurrences] in Hocc.
    destruct (startswith old (c :: s)) eqn:E.
    + rewrite (replace_from_occurrence old [] (c :: s) Hold E). cbn [app].
      pose proof (replace_from_nil_len old 0 (skipn (len old) (c :: s))) as H.
      assert (Hlen : len old <= len (c :: s)).
      { clear - E. revert E. generalize (c :: s). intros s0.
        revert s0. induction old as [ | o old IHo ]; intros s0 E.
        - cbn. lia.
        - destruct s0 as [ | b s0 ]; [ discriminate | ].
          cbn in E. apply andb_prop in E. destruct E as [_ E].
          specialize (IHo s0 E). unfold len in *. cbn [List.length]. lia. }
      unfold len in *. rewrite length_skipn in H. lia.
    + cbn [replace_from]. rewrite E. cbn in Hocc. specialize (IH Hocc).
      unfold len in *. cbn [List.length]. lia.
Qed.

Lemma occurrences_suffix (p a b : str) :
  p <> [] -> startswith p b = true -> 0 < occurrences p (a ++ b).
Proof.
  intros Hp Hb. induction a as [ | c a IH ].
  - destruct b as [ | c b ].
    + destruct p; [ contradiction | discriminate ].
    + cbn [app occurrences]. rewrite Hb. lia.
  - cbn [app occurrences]. lia.
Qed.

(** Whatever the document, the full-text view of a text of more than 500
    characters holds at most 500 of them. *)
Lemma full_text_view_truncates (pdf_text : str) :
  500 < len pdf_text ->
  len (replace (lit "...") [] (preview pdf_text)) <= 500.
Proof.
  intros Hlong. rewrite (preview_long pdf_text Hlong).
  assert (Hocc : 0 < occurrences ELLIPSIS (slice_to PREVIEW_CAP pdf_text ++ ELLIPSIS)).
  { apply occurrences_suffix; [ discriminate | reflexivity ]. }
  pose proof (replace_from_nil_shrinks ELLIPSIS _ ltac:(discriminate) Hocc) as H.
  change (replace (lit "...") [] (slice_to PREVIEW_CAP pdf_text ++ ELLIPSIS))
    with (replace_from ELLIPSIS [] 0 (slice_to PREVIEW_CAP pdf_text ++ ELLIPSIS)).
  remember (replace_from ELLIPSIS [] 0 (slice_to PREVIEW_CAP pdf_text ++ ELLIPSIS))
    as shown.
  assert (Hcut : len (slice_to PREVIEW_CAP pdf_text ++ ELLIPSIS) <= 500 + 3).
  { unfold len, slice_to. rewrite length_app, length_firstn.
    fold (len ELLIPSIS). rewrite len_ELLIPSIS.
    change PREVIEW_CAP with 500. lia. }
  rewrite len_ELLIPSIS in H. lia.
Qed.

(** The lookup of the full-text section.  When several entries of a
    report bear one file name, the full-text area of each of them shows the
    stored text of the first of them (with ["..."] removed), whatever text
    the later entry holds. *)
Lemma full_text_view_first_match (results : list Entry) (i j : nat)
    (first later : Entry) :
  nth_error results i = Some first ->
  (forall k r, k < i -> nth_error results k = Some r ->
     Filename r <> Filename first) ->
  nth_error results j = Some later ->
  Filename later = Filename first ->
  full_text_shown results later = replace (lit "...") [] (Extracted_Text first) /\
  nth_error (events (main_full_text_loop results 0 results)) (2 * j + 1)
  = Some (st_text_area (lit "Full text")
            (replace (lit "...") [] (Extracted_Text first))
            (lit "full_" ++ str_of_nat j)).
Proof.
  intros Hi Hfirst Hj Hname.
  assert (Hshown : full_text_shown results later
                   = replace (lit "...") [] (Extracted_Text first)).
  { unfold full_text_shown. rewrite Hname.
    destruct (nth_error_split results i Hi) as (before & after & -> & Hlen).
    rewrite next_extracted_text_first; [ reflexivity | ].
    intros r Hr. destruct (In_nth_error before r Hr) as [k Hk].
    apply (Hfirst k r).
    - rewrite <- Hlen. apply nth_error_Some. rewrite Hk. discriminate.
    - rewrite nth_error_app1; [ exact Hk | ].
      apply nth_error_Some. rewrite Hk. discriminate. }
  split; [ exact Hshown | ].
  rewrite (main_full_text_loop_nth results results 0 j later Hj), Hshown.
  reflexivity.
Qed.

(** ** Batches without a raising call *)

Section Soft.

Variable w : World.
Variables (api_key : str) (format_template : option str) (client : Client).
Hypothesis client_built : Anthropic w api_key = Ok client.

Lemma extracted_soft (pdf_file_name : str) (page_num : nat) (image : Image)
    (png : bytes) :
  Image_save w image = Ok png ->
  extracted w api_key pdf_file_name format_template page_num image
  = Ok (soft_text w client
          (page_request w pdf_file_name format_template page_num png)).
Proof.
  intros Hs. unfold extracted.
  rewrite extract_text_with_claude_outcome, client_built, Hs.
  unfold soft_text, page_request. cbv zeta.
  destruct (messages_create w client _) as [response | e]; [ | reflexivity ].
  destruct (content response); reflexivity.
Qed.

Lemma page_texts_soft (pdf_file_name : str) (page_num : nat)
    (images : list Image) :
  (forall image, In image images -> exists png, Image_save w image = Ok png) ->
  exists texts,
    page_texts w api_key pdf_file_name format_template page_num images
      = Ok texts /\
    forall j image png,
      nth_error images j = Some image -> Image_save w image = Ok png ->
      nth_error texts j
      = Some (soft_text w client
                (page_request w pdf_file_name format_template (page_num + j) png)).
Proof.
  revert page_num. induction images as [ | image rest IH ]; intros page_num Hall.
  - exists []. split; [ reflexivity | ]. intros [ | j ]; discriminate.
  - destruct (Hall image (or_introl eq_refl)) as [png Hpng].
    destruct (IH (S page_num)) as (ts & Hts & Hnth).
    { intros im Him. apply Hall. right. exact Him. }
    exists (soft_text w client
              (page_request w pdf_file_name format_template page_num png) :: ts).
    split.
    + simpl. rewrite (extracted_soft _ _ _ _ Hpng), Hts. reflexivity.
    + intros [ | j ] im png' Hj Hs; simpl in Hj |- *.
      * injection Hj as <-. rewrite Hpng in Hs. injection Hs as <-.
        rewrite Nat.add_0_r. reflexivity.
      * rewrite (Hnth j im png' Hj Hs), Nat.add_succ_comm. reflexivity.
Qed.


Lemma file_entries_soft (f : UploadedFile) :
  (forall images image, images_of w f = Some images -> In image images ->
     exists png, Image_save w image = Ok png) ->
  exists entries,
    file_entries w api_key format_template f = Ok entries /\
    forall images, images_of w f = Some images -> images <> [] ->
      exists texts,
        page_texts w api_key (name f) format_template 1 images = Ok texts /\
        entries = [mkEntry (name f) (List.length images)
                     (preview (blocks 1 texts))].
Proof.
  intros Hall. unfold file_entries.
  destruct (images_of w f) as [[ | image more] | ] eqn:E.
  - exists []. split; [ reflexivity | ].
    intros images H. injection H as <-. intros Hne. contradiction.
  - destruct (page_texts_soft (name f) 1 (image :: more)) as (ts & Hts & _).
    { intros im Him. apply (Hall (image :: more)); [ reflexivity | exact Him ]. }
    rewrite Hts. eexists. split; [ reflexivity | ].
    intros images H. injection H as <-. intros _.
    exists ts. split; [ exact Hts | reflexivity ].
  - exists []. split; [ reflexivity | ]. intros images H. discriminate.
Qed.

Lemma no_hard_failure_cons (f : UploadedFile) (files : list UploadedFile) :
  no_hard_failure w api_key (f :: files) client ->
  no_hard_failure w api_key files client.
Proof.
  intros [Hc Hall]. split; [ exact Hc | ].
  intros g images image Hg. apply Hall. right. exact Hg.
Qed.

Lemma run_files_soft (files : list UploadedFile) (results : list Entry) :
  no_hard_failure w api_key files client ->
  exists r,
    run_files w api_key format_template files results = Ok r /\
    incl results r /\
    forall f entries,
      In f files -> file_entries w api_key format_template f = Ok entries ->
      incl entries r.
Proof.
  revert results. induction files as [ | g rest IH ]; intros results Hsoft.
  - exists results. split; [ reflexivity | ].
    split; [ apply incl_refl | ]. intros f entries [].
  - destruct (file_entries_soft g) as (es & Hes & _).
    { intros images image Hi. apply (proj2 Hsoft g images image).
      - left; reflexivity.
      - exact Hi. }
    destruct (IH (results ++ es) (no_hard_failure_cons g rest Hsoft))
      as (r & Hr & Hincl & Hfiles).
    exists r. split; [ simpl; rewrite Hes; exact Hr | ].
    split.
    + intros x Hx. apply Hincl. apply in_or_app. left. exact Hx.
    + intros f entries [<- | Hf] Hent.
      * rewrite Hes in Hent. injection Hent as <-.
        intros x Hx. apply Hincl. apply in_or_app. right. exact Hx.
      * apply (Hfiles f entries Hf Hent).
Qed.

End Soft.

Section SoftBatch.

Variable w : World.
Variables (api_key : str) (format_template : option str) (client : Client).

Lemma main_file_body_opens (total idx : nat) (f : UploadedFile)
    (results : list Entry) :
  In (ev_fitz_open (read f))
     (events (main_file_body w api_key format_template total idx f results)).
Proof.
  unfold main_file_body. mrun. rewrite !in_app_iff.
  do 3 right. left. unfold pdf_to_images. mrun.
  rewrite !in_app_iff. left. left. left. reflexivity.
Qed.


Lemma main_files_loop_includes_body (total : nat) (files : list UploadedFile)
    (f : UploadedFile) :
  no_hard_failure w api_key files client ->
  In f files ->
  forall idx results,
  exists idx' results',
    incl (events (main_file_body w api_key format_template total idx' f results'))
         (events (main_files_loop w api_key format_template total idx files
                    results)).
Proof.
  induction files as [ | g rest IH ]; intros Hsoft Hf idx results;
    [ destruct Hf | ].
  cbn [main_files_loop]. destruct Hf as [-> | Hf].
  - exists idx, results. mrun. apply incl_appl, incl_refl.
  - destruct (file_entries_soft w api_key format_template client
                (proj1 Hsoft) g) as (es & Hes & _).
    { intros images image Hi. apply (proj2 Hsoft g images image).
      - left; reflexivity.
      - exact Hi. }
    destruct (IH (no_hard_failure_cons w api_key client g rest Hsoft) Hf
                (S idx) (results ++ es)) as (idx' & r' & Hincl).
    exists idx', r'. mrun. rewrite main_file_body_outcome, Hes.
    apply incl_appr. exact Hincl.
Qed.

Lemma main_process_events (files : list UploadedFile) :
  events (main_process w api_key format_template files)
  = [progress_bar_progress 0 1]
    ++ events (main_files_loop w api_key format_template (List.length files) 0
                 files [])
    ++ match run_files w api_key format_template files [] with
       | Ok results =>
           [status_text_text (lit "Processing complete!");
            progress_bar_progress 1 1] ++ events (main_report w results)
       | Raise _ => []
       end.
Proof.
  unfold main_process. mrun. rewrite main_files_loop_outcome.
  destruct (run_files w api_key format_template files []); mrun; reflexivity.
Qed.

Lemma main_process_outcome (files : list UploadedFile) :
  outcome (main_process w api_key format_template files)
  = match run_files w api_key format_template files [] with
    | Ok _ => Ok tt
    | Raise e => Raise e
    end.
Proof.
  unfold main_process. mrun. rewrite main_files_loop_outcome.
  destruct (run_files w api_key format_template files []); mrun;
    [ apply main_report_outcome | reflexivity ].
Qed.

End SoftBatch.




(** ** The cap on the number of documents *)

Lemma main_over_cap (w : World) (i : Inputs) :
  5 < List.length (uploaded_files i) ->
  outcome (main w i) = Ok tt /\
  (forall ev, In ev (events (main w i)) -> processing_event ev = false) /\
  (password_correct i = Some true -> api_key i <> [] ->
   events (main w i)
   = main_prelude_events i
     ++ [st_error (lit "Please upload maximum 5 files at a time")]).
Proof.
  intros Hlen. destruct i as [pc key ut fti files clicked]. cbn in Hlen.
  assert (Hcap : (MAX_FILES <? List.length files) = true)
    by (apply Nat.ltb_lt; exact Hlen).
  destruct files as [ | f files ]; [ cbn in Hlen; lia | ].
  unfold main, check_password, main_prelude_events.
  cbn [password_correct api_key use_template format_template_input
       uploaded_files process_clicked].
  destruct pc as [[ | ] | ]; destruct key as [ | c key ]; destruct ut;
    mrun; cbn [negb]; mrun; rewrite ?Hcap; mrun;
    (split; [ reflexivity | ]);
    (split;
     [ intros ev Hin; rewrite ?in_app_iff in Hin; cbn [In] in Hin;
       repeat (destruct Hin as [Hin | Hin]); subst; try reflexivity;
       contradiction
     | intros Hpc Hkey; try discriminate Hpc;
       try (exfalso; apply Hkey; reflexivity); reflexivity ]).
Qed.

Lemma main_at_cap (w : World) (i : Inputs) :
  List.length (uploaded_files i) <= 5 ->
  uploaded_files i <> [] ->
  password_correct i = Some true -> api_key i <> [] ->
  process_clicked i = true ->
  events (main w i)
  = main_prelude_events i
    ++ [st_button ([128640%N] ++ lit " Process PDFs")]
    ++ events (main_process w (api_key i) (chosen_template i) (uploaded_files i)) /\
  outcome (main w i)
  = outcome (main_process w (api_key i) (chosen_template i) (uploaded_files i)).
Proof.
  intros Hlen Hne Hpc Hkey Hclick.
  destruct i as [pc key ut fti files clicked].
  cbn [password_correct api_key use_template format_template_input
       uploaded_files process_clicked] in *.
  subst pc clicked.
  assert (Hcap : (MAX_FILES <? List.length files) = false)
    by (apply Nat.ltb_ge; exact Hlen).
  destruct files as [ | f files ]; [ contradiction | ].
  destruct key as [ | c key ]; [ contradiction | ].
  unfold main, check_password, main_prelude_events, chosen_template.
  cbn [password_correct api_key use_template format_template_input
       uploaded_files process_clicked].
  destruct ut; mrun; cbn [negb]; mrun; rewrite ?Hcap; mrun;
    (split; reflexivity).
Qed.


(** ** Runs on the concrete world *)

(** C1.  The full-text area does not show the full text.  For a one-page
    document whose text has 617 characters it shows the first 500 only;
    for a short document whose page text ends in ["..."] it shows the text
    without these three characters, which belong to the text itself. *)
Theorem full_text_view_not_full :
  outcome (main_pages_loop Demo.world Demo.key (lit "long.pdf") None 1
             [ImageHandle 700] [])
    = Ok (page_block 1 (repeat 97%N 600)) /\
  len (page_block 1 (repeat 97%N 600)) = 617 /\
  In (st_text_area (lit "Full text")
        (slice_to 500 (page_block 1 (repeat 97%N 600))) (lit "full_0"))
     (events (main Demo.world (Demo.inputs [Demo.long_pdf]))) /\
  slice_to 500 (page_block 1 (repeat 97%N 600))
    <> page_block 1 (repeat 97%N 600) /\
  outcome (main_pages_loop Demo.world Demo.key (lit "dots.pdf") None 1
             [ImageHandle 600] [])
    = Ok (page_block 1 (lit "Wait...")) /\
  In (st_text_area (lit "Full text") (page_block 1 (lit "Wait"))
        (lit "full_0"))
     (events (main Demo.world (Demo.inputs [Demo.dots_pdf]))) /\
  page_block 1 (lit "Wait") <> page_block 1 (lit "Wait...").
Proof.
  split; [ vm_compute; reflexivity | ].
  split; [ vm_compute; reflexivity | ].
  split; [ apply (nth_error_In _ 29); vm_compute; reflexivity | ].
  split.
  { intros H. apply (f_equal len) in H. vm_compute in H. discriminate H. }
  split; [ vm_compute; reflexivity | ].
  split; [ apply (nth_error_In _ 29); vm_compute; reflexivity | ].
  intros H. apply (f_equal len) in H. vm_compute in H. discriminate H.
Qed.

Lemma demo_no_hard_failure :
  no_hard_failure Demo.world Demo.key
    ([Demo.a_pdf] ++ Demo.b_pdf :: [Demo.c_pdf]) (ClientHandle 0).
Proof.
  split; [ reflexivity | ].
  intros f images image Hf Himg Hin.
  destruct Hf as [<- | [<- | [<- | []]]]; vm_compute in Himg;
    injection Himg as <-;
    repeat (destruct Hin as [<- | Hin]; [ eexists; reflexivity | ]);
    destruct Hin.
Qed.



Lemma parse_failure_isolated_witness :
  fitz_open Demo.world (read Demo.broken_pdf)
    = Raise (Exception (lit "cannot open broken document")) /\
  outcome (main_files_loop Demo.world Demo.key None 3 0
             ([Demo.a_pdf] ++ Demo.broken_pdf :: [Demo.c_pdf]) [])
  = outcome (main_files_loop Demo.world Demo.key None 2 0
               ([Demo.a_pdf] ++ [Demo.c_pdf]) []) /\
  In (st_error (lit "Error converting PDF to images: cannot open broken document"))
     (events (main_file_body Demo.world Demo.key None 3 1 Demo.broken_pdf [])).
Proof.
  split; [ reflexivity | ].
  destruct (parse_failure_isolated Demo.world Demo.key None Demo.broken_pdf
              (Exception (lit "cannot open broken document")) eq_refl)
    as (Hbody & Hout & _).
  split; [ apply Hout | ].
  rewrite (proj2 (Hbody 3 1 [])). do 4 right. left. reflexivity.
Defined.

Lemma zero_page_pdf_skipped_witness :
  fitz_open Demo.world (read Demo.empty_pdf) = Ok (DocumentHandle 300) /\
  page_count Demo.world (DocumentHandle 300) = 0 /\
  outcome (main_files_loop Demo.world Demo.key None 3 0
             ([Demo.a_pdf] ++ Demo.empty_pdf :: [Demo.c_pdf]) [])
  = outcome (main_files_loop Demo.world Demo.key None 2 0
               ([Demo.a_pdf] ++ [Demo.c_pdf]) []) /\
  outcome (main_file_body Demo.world Demo.key None 3 1 Demo.empty_pdf [])
  = Ok [].
Proof.
  split; [ reflexivity | ].
  split; [ reflexivity | ].
  destruct (zero_page_pdf_skipped Demo.world Demo.key None Demo.empty_pdf
              (DocumentHandle 300) eq_refl eq_refl)
    as (_ & Hbody & Hout & _).
  split; [ apply Hout | ].
  exact (proj1 (Hbody 3 1 [])).
Defined.

Lemma demo_same_name_results :
  outcome (main_files_loop Demo.world Demo.key None 2 0
             [Demo.a_pdf; Demo.a_pdf_bis] [])
  = Ok [mkEntry (lit "a.pdf") 1 (page_block 1 (lit "text 100"));
        mkEntry (lit "a.pdf") 1 (page_block 1 (lit "text 200"))].
Proof. vm_compute. reflexivity. Qed.

Lemma full_text_view_first_match_witness :
  full_text_shown
    [mkEntry (lit "a.pdf") 1 (page_block 1 (lit "text 100"));
     mkEntry (lit "a.pdf") 1 (page_block 1 (lit "text 200"))]
    (mkEntry (lit "a.pdf") 1 (page_block 1 (lit "text 200")))
  = replace (lit "...") [] (page_block 1 (lit "text 100")).
Proof.
  refine (proj1 (full_text_view_first_match
            [mkEntry (lit "a.pdf") 1 (page_block 1 (lit "text 100"));
             mkEntry (lit "a.pdf") 1 (page_block 1 (lit "text 200"))]
            0 1
            (mkEntry (lit "a.pdf") 1 (page_block 1 (lit "text 100")))
            (mkEntry (lit "a.pdf") 1 (page_block 1 (lit "text 200")))
            eq_refl _ eq_refl eq_refl)).
  intros k r Hk. lia.
Defined.

Lemma demo_same_name_view :
  nth_error (events (main Demo.world (Demo.inputs [Demo.a_pdf; Demo.a_pdf_bis]))) 42
  = Some (st_text_area (lit "Full text") (page_block 1 (lit "text 100"))
            (lit "full_0")) /\
  nth_error (events (main Demo.world (Demo.inputs [Demo.a_pdf; Demo.a_pdf_bis]))) 44
  = Some (st_text_area (lit "Full text") (page_block 1 (lit "text 100"))
            (lit "full_1")).
Proof. split; vm_compute; reflexivity. Qed.

(** * Further properties of the code *)

(** ** Invariants of the log *)

Lemma Forall_events_bind {A B} (P : event -> Prop) (m : M A) (k : A -> M B) :
  Forall P (events m) ->
  (forall a, outcome m = Ok a -> Forall P (events (k a))) ->
  Forall P (events (bind m k)).
Proof.
  intros Hm Hk. rewrite events_bind. apply Forall_app. split; [ exact Hm | ].
  destruct (outcome m) as [a | e]; [ apply Hk; reflexivity | constructor ].
Qed.

Lemma Forall_events_try_except {A} (P : event -> Prop) (m : M A)
    (h : exn -> M A) :
  Forall P (events m) ->
  (forall e, outcome m = Raise e -> Forall P (events (h e))) ->
  Forall P (events (try_except m h)).
Proof.
  intros Hm Hh. rewrite events_try_except. apply Forall_app.
  split; [ exact Hm | ].
  destruct (outcome m) as [a | e]; [ constructor | apply Hh; reflexivity ].
Qed.

(** ** The gates of [main] *)

(** X1. [main] opens a file, renders a page, sends a request or shows a
    report only for a logged-in session with a key, one to five files and
    the button pressed. *)
Theorem main_processing_gate (w : World) (i : Inputs) (ev : event) :
  In ev (events (main w i)) ->
  processing_event ev = true ->
  password_correct i = Some true /\
  api_key i <> [] /\
  1 <= List.length (uploaded_files i) <= 5 /\
  process_clicked i = true.
Proof.
  destruct i as [pc key ut fti files clicked].
  cbn [password_correct api_key uploaded_files process_clicked].
  unfold main, check_password.
  cbn [password_correct api_key use_template format_template_input
       uploaded_files process_clicked].
  destruct (Nat.ltb_spec MAX_FILES (List.length files)) as [Hover | Hle].
  - destruct pc as [[ | ] | ]; destruct key as [ | c key ]; destruct ut;
      destruct files as [ | f files ]; mrun; cbn [negb]; mrun;
      intros Hin Hproc; rewrite ?in_app_iff in Hin; cbn [In] in Hin;
      repeat (destruct Hin as [Hin | Hin]); subst; try discriminate Hproc;
      try contradiction.
  - unfold MAX_FILES in Hle.
    destruct pc as [[ | ] | ]; destruct key as [ | c key ]; destruct ut;
      destruct files as [ | f files ]; destruct clicked;
      mrun; cbn [negb]; mrun;
      intros Hin Hproc;
      try (repeat split; try discriminate; try reflexivity;
           cbn [List.length] in *; lia);
      rewrite ?in_app_iff in Hin; cbn [In] in Hin;
      repeat (destruct Hin as [Hin | Hin]); subst; try discriminate Hproc;
      try contradiction.
Qed.

Lemma main_processing_gate_witness :
  password_correct (Demo.inputs [Demo.a_pdf]) = Some true /\
  api_key (Demo.inputs [Demo.a_pdf]) <> [] /\
  1 <= List.length (uploaded_files (Demo.inputs [Demo.a_pdf])) <= 5 /\
  process_clicked (Demo.inputs [Demo.a_pdf]) = true.
Proof.
  apply (main_processing_gate Demo.world (Demo.inputs [Demo.a_pdf])
           (ev_fitz_open [1; 1]%N)).
  - apply (nth_error_In _ 12). vm_compute. reflexivity.
  - reflexivity.
Defined.

(** X2. The file uploader is shown only to a logged-in session that gave
    a key; the key input is shown only to a logged-in session. *)
Theorem main_login_wall (w : World) (i : Inputs) :
  (forall label, In (st_file_uploader label) (events (main w i)) ->
     password_correct i = Some true /\ api_key i <> []) /\
  (In (st_text_input (lit "Enter your Anthropic API Key:")) (events (main w i)) ->
     password_correct i = Some true) /\
  (password_correct i <> Some true -> outcome (main w i) = Ok tt).
Proof.
  destruct i as [pc key ut fti files clicked].
  cbn [password_correct api_key].
  unfold main, check_password.
  cbn [password_correct api_key use_template format_template_input
       uploaded_files process_clicked].
  split; [ | split ].
  - intros label.
    destruct pc as [[ | ] | ]; destruct key as [ | c key ];
      mrun; cbn [negb]; mrun; intros Hin;
      try (split; [ reflexivity | discriminate ]);
      rewrite ?in_app_iff in Hin; cbn [In] in Hin;
      repeat (destruct Hin as [Hin | Hin]); try discriminate Hin;
      contradiction.
  - destruct pc as [[ | ] | ]; mrun; cbn [negb]; mrun; intros Hin;
      try reflexivity;
      rewrite ?in_app_iff in Hin; cbn [In] in Hin;
      repeat (destruct Hin as [Hin | Hin]); try discriminate Hin;
      contradiction.
  - destruct pc as [[ | ] | ]; intros Hpc; [ contradiction | | ];
      mrun; cbn [negb]; mrun; reflexivity.
Qed.

Lemma main_login_wall_witness :
  password_correct (Demo.inputs []) = Some true /\
  api_key (Demo.inputs []) <> [].
Proof.
  apply (proj1 (main_login_wall Demo.world (Demo.inputs []))
           (lit "Upload PDF files (max 5)")).
  apply (nth_error_In _ 6). vm_compute. reflexivity.
Defined.

(** ** Failures inside the rasterizer *)

Lemma pdf_to_images_loop_rendering (w : World) (doc : Document)
    (page_nums : list nat) (images : list Image) :
  Forall (fun ev => rendering_event ev = true)
    (events (pdf_to_images_loop w doc page_nums images)).
Proof.
  revert images. induction page_nums as [ | n rest IH ]; intros images.
  - constructor.
  - cbn [pdf_to_images_loop].
    repeat (apply Forall_events_bind; [ | intros ? _ ]);
      try (rewrite ?events_lift, ?events_emit; repeat constructor).
    apply IH.
Qed.

(** X3. The rasterizer never raises.  Either it returns the images, having
    closed the document as its last act and shown no error; or it returns
    [None], having shown one error message as its last act and never
    closed the document. *)
Theorem pdf_to_images_never_raises (w : World) (pdf_file : UploadedFile) :
  (exists images doc pre,
     outcome (pdf_to_images w pdf_file) = Ok (Some images) /\
     events (pdf_to_images w pdf_file) = pre ++ [ev_close doc] /\
     Forall (fun ev => rendering_event ev = true) pre) \/
  (exists e pre,
     outcome (pdf_to_images w pdf_file) = Ok None /\
     events (pdf_to_images w pdf_file)
     = pre ++ [st_error (lit "Error converting PDF to images: " ++ str_of_exn e)] /\
     Forall (fun ev => rendering_event ev = true) pre).
Proof.
  unfold pdf_to_images. mrun.
  destruct (fitz_open w (read pdf_file)) as [doc | e]; mrun.
  - pose proof (pdf_to_images_loop_rendering w doc
                  (seq 0 (page_count w doc)) []) as Hloop.
    destruct (outcome (pdf_to_images_loop w doc _ _)) as [images | e]; mrun.
    + left.
      exists images, doc,
        (ev_fitz_open (read pdf_file)
         :: events (pdf_to_images_loop w doc (seq 0 (page_count w doc)) [])).
      split; [ reflexivity | ]. split.
      * cbn [app]. rewrite !app_nil_r. reflexivity.
      * constructor; [ reflexivity | exact Hloop ].
    + right. exists e.
      exists (ev_fitz_open (read pdf_file)
              :: events (pdf_to_images_loop w doc (seq 0 (page_count w doc)) [])).
      split; [ reflexivity | ]. split.
      * cbn [app]. rewrite !app_nil_r. reflexivity.
      * constructor; [ reflexivity | exact Hloop ].
  - right. exists e, [ev_fitz_open (read pdf_file)].
    split; [ reflexivity | ]. split; [ reflexivity | repeat constructor ].
Qed.

Lemma pdf_to_images_loop_failure (w : World) (doc : Document)
    (page : nat -> Page) (pix : nat -> Pixmap) (data : nat -> bytes)
    (img : nat -> Image) (i : nat) (e : exn)
    (before after : list nat) (images : list Image) :
  (forall j, In j before -> renders w doc page pix data img j) ->
  load_page w doc i = Ok (page i) ->
  get_pixmap w (page i) (mkMatrix 2 2) = Raise e ->
  outcome (pdf_to_images_loop w doc (before ++ i :: after) images) = Raise e /\
  events (pdf_to_images_loop w doc (before ++ i :: after) images)
  = map (fun j => ev_get_pixmap (page j) (mkMatrix 2 2)) (before ++ [i]).
Proof.
  intros Hbefore Hload Hfail. revert images.
  induction before as [ | j before IH ]; intros images.
  - cbn [app pdf_to_images_loop]. mrun. rewrite Hload. mrun.
    rewrite Hfail. mrun. split; reflexivity.
  - destruct (Hbefore j (or_introl eq_refl)) as (Hl & Hp & Hd & Hi).
    destruct (IH (fun k Hk => Hbefore k (or_intror Hk)) (images ++ [img j]))
      as [IHo IHe].
    cbn [app pdf_to_images_loop]. mrun. rewrite Hl; mrun. rewrite Hp; mrun.
    rewrite Hd; mrun. rewrite Hi; mrun. rewrite IHo, IHe.
    split; reflexivity.
Qed.

(** X4. When a page of an opened PDF cannot be rendered, the rasterizer
    returns [None] for the whole document: the images of the pages before
    it are dropped, the pages after it are not rendered, and the message
    shown carries the description of the failure. *)
Theorem pdf_to_images_page_failure (w : World) (pdf_file : UploadedFile)
    (doc : Document) (page : nat -> Page) (pix : nat -> Pixmap)
    (data : nat -> bytes) (img : nat -> Image) (i : nat) (e : exn) :
  fitz_open w (read pdf_file) = Ok doc ->
  i < page_count w doc ->
  (forall j, j < i -> renders w doc page pix data img j) ->
  load_page w doc i = Ok (page i) ->
  get_pixmap w (page i) (mkMatrix 2 2) = Raise e ->
  outcome (pdf_to_images w pdf_file) = Ok None /\
  events (pdf_to_images w pdf_file)
  = ev_fitz_open (read pdf_file)
    :: map (fun j => ev_get_pixmap (page j) (mkMatrix 2 2)) (seq 0 (S i))
    ++ [st_error (lit "Error converting PDF to images: " ++ str_of_exn e)].
Proof.
  intros Hopen Hi Hbefore Hload Hfail.
  assert (Hseq : seq 0 (page_count w doc)
                 = seq 0 i ++ i :: seq (S i) (page_count w doc - S i)).
  { replace (page_count w doc) with (i + S (page_count w doc - S i)) at 1
      by lia.
    rewrite seq_app. reflexivity. }
  destruct (pdf_to_images_loop_failure w doc page pix data img i e
              (seq 0 i) (seq (S i) (page_count w doc - S i)) [])
    as [Ho He]; try assumption.
  { intros j Hj. apply Hbefore. apply in_seq in Hj. lia. }
  unfold pdf_to_images. mrun. rewrite Hopen. mrun. rewrite Hseq, Ho, He.
  mrun. split; [ reflexivity | ].
  rewrite seq_S. cbn [app Nat.add]. rewrite !app_nil_r. reflexivity.
Qed.

Lemma pdf_to_images_page_failure_witness :
  outcome (pdf_to_images world_torn_page (Demo.pdf "torn.pdf" 4 3)) = Ok None /\
  events (pdf_to_images world_torn_page (Demo.pdf "torn.pdf" 4 3))
  = [ev_fitz_open [4; 3]%N;
     ev_get_pixmap (PageHandle 400) (mkMatrix 2 2);
     ev_get_pixmap (PageHandle 401) (mkMatrix 2 2);
     st_error (lit "Error converting PDF to images: cannot render page")].
Proof.
  refine (pdf_to_images_page_failure world_torn_page (Demo.pdf "torn.pdf" 4 3)
            (DocumentHandle 403) (fun i => PageHandle (400 + N.of_nat i))
            (fun i => PixmapHandle (400 + N.of_nat i))
            (fun i => [400 + N.of_nat i]%N)
            (fun i => ImageHandle (400 + N.of_nat i)) 1
            (Exception (lit "cannot render page")) eq_refl _ _ eq_refl eq_refl).
  - vm_compute. lia.
  - intros j Hj. assert (j = 0) by lia. subst j.
    repeat split; reflexivity.
Defined.

(** ** One request per call *)

(** X5. A call of the extraction client sends one request when it returns
    and none when it raises; it never sends a second one after a failure. *)
Theorem extract_text_with_claude_one_request (w : World) (image : Image)
    (api_key filename : str) (structured_format : option str) :
  (exists e,
     outcome (extract_text_with_claude w image api_key filename
                structured_format) = Raise e /\
     events (extract_text_with_claude w image api_key filename
               structured_format) = []) \/
  (exists t client png,
     Anthropic w api_key = Ok client /\
     Image_save w image = Ok png /\
     outcome (extract_text_with_claude w image api_key filename
                structured_format) = Ok t /\
     events (extract_text_with_claude w image api_key filename
               structured_format)
     = [ev_messages_create client
          (mkRequest (lit "claude-3-5-sonnet-20241022") 4096
             (build_prompt filename structured_format) (lit "image/png")
             (b64encode w png))]).
Proof.
  rewrite extract_text_with_claude_outcome.
  destruct (Anthropic w api_key) as [client | e] eqn:Hc.
  - destruct (Image_save w image) as [png | e] eqn:Hs.
    + right.
      rewrite (extract_text_with_claude_events w image api_key filename
                 structured_format client png Hc Hs).
      cbv zeta.
      destruct (messages_create w client _) as [response | e].
      * destruct (content response); eexists; exists client, png;
          repeat split; reflexivity.
      * eexists; exists client, png; repeat split; reflexivity.
    + left. exists e. split; [ reflexivity | ].
      unfold extract_text_with_claude, encode_image. mrun. rewrite Hc. mrun.
      rewrite Hs. mrun. reflexivity.
  - left. exists e. split; [ reflexivity | ].
    unfold extract_text_with_claude. mrun. rewrite Hc. mrun. reflexivity.
Qed.

(** ** The template *)

Lemma main_pages_loop_empty_template (w : World) (api_key pdf_file_name : str)
    (page_num : nat) (images : list Image) (pdf_text : str) :
  main_pages_loop w api_key pdf_file_name (Some []) page_num images pdf_text
  = main_pages_loop w api_key pdf_file_name None page_num images pdf_text.
Proof.
  revert page_num pdf_text.
  induction images as [ | image rest IH ]; intros page_num pdf_text.
  - reflexivity.
  - cbn [main_pages_loop].
    repeat (apply bind_ext; intros ?). apply IH.
Qed.

(** X6. Ticking the template box and leaving the text empty runs the batch
    exactly as without a template: same requests, same log, same report. *)
Theorem main_process_empty_template (w : World) (api_key : str)
    (files : list UploadedFile) :
  main_process w api_key (Some []) files = main_process w api_key None files.
Proof.
  unfold main_process. apply bind_ext. intros _.
  assert (Hloop : forall total idx results,
            main_files_loop w api_key (Some []) total idx files results
            = main_files_loop w api_key None total idx files results).
  { induction files as [ | f rest IH ]; intros total idx results.
    - reflexivity.
    - cbn [main_files_loop]. rewrite bind_ext with
        (g := fun r => main_files_loop w api_key None total (S idx) rest r)
        by (intros r; apply IH).
      f_equal. unfold main_file_body.
      repeat (apply bind_ext; intros ?).
      destruct a2 as [[ | image more] | ]; try reflexivity.
      apply bind_ext. intros _.
      rewrite main_pages_loop_empty_template. reflexivity. }
  rewrite Hloop. reflexivity.
Qed.

(** ** The exact log of a batch without a raising call *)

Section ExactLog.

Variable w : World.
Variables (api_key : str) (format_template : option str) (client : Client).
Hypothesis client_built : Anthropic w api_key = Ok client.

Lemma main_pages_loop_events (pdf_file_name : str) (page_num : nat)
    (images : list Image) (pdf_text : str) :
  (forall image, In image images -> exists png, Image_save w image = Ok png) ->
  events (main_pages_loop w api_key pdf_file_name format_template page_num
            images pdf_text)
  = pages_events w format_template client pdf_file_name page_num images.
Proof.
  revert page_num pdf_text.
  induction images as [ | image rest IH ]; intros page_num pdf_text Hall.
  - reflexivity.
  - destruct (Hall image (or_introl eq_refl)) as [png Hpng].
    pose proof (extracted_soft w api_key format_template client client_built
                  pdf_file_name page_num image png Hpng) as Hx.
    unfold extracted in Hx.
    cbn [main_pages_loop pages_events]. mrun. rewrite Hx. mrun.
    rewrite (extract_text_with_claude_events w image api_key _ format_template
               client png client_built Hpng).
    rewrite IH by (intros im Him; apply Hall; right; exact Him).
    unfold page_events, png_of, page_request, page_area_key. rewrite Hpng.
    reflexivity.
Qed.

Lemma main_file_body_events (total idx : nat) (f : UploadedFile)
    (results : list Entry) :
  (forall images image, images_of w f = Some images -> In image images ->
     exists png, Image_save w image = Ok png) ->
  events (main_file_body w api_key format_template total idx f results)
  = file_events w format_template client total idx f.
Proof.
  intros Hall. unfold main_file_body, file_events. mrun.
  rewrite pdf_to_images_outcome.
  destruct (images_of w f) as [[ | image more] | ] eqn:E; mrun;
    try reflexivity.
  rewrite main_pages_loop_events
    by (intros im Him; apply (Hall (image :: more)); [ reflexivity | exact Him ]).
  destruct (outcome (main_pages_loop w api_key (name f) format_template 1
                       (image :: more) [])); mrun;
    rewrite ?app_nil_r; reflexivity.
Qed.

Lemma main_files_loop_events (total idx : nat) (files : list UploadedFile)
    (results : list Entry) :
  no_hard_failure w api_key files client ->
  events (main_files_loop w api_key format_template total idx files results)
  = files_events w format_template client total idx files.
Proof.
  revert idx results.
  induction files as [ | f rest IH ]; intros idx results Hsoft.
  - reflexivity.
  - cbn [main_files_loop files_events]. mrun.
    rewrite main_file_body_events
      by (intros images image Hi Hin;
          exact (proj2 Hsoft f images image (or_introl eq_refl) Hi Hin)).
    rewrite main_file_body_outcome.
    destruct (file_entries_soft w api_key format_template client client_built f)
      as (es & -> & _).
    { intros images image Hi Hin.
      exact (proj2 Hsoft f images image (or_introl eq_refl) Hi Hin). }
    rewrite IH by exact (no_hard_failure_cons w api_key client f rest Hsoft).
    reflexivity.
Qed.

End ExactLog.

(** ** Projections of the log *)

Lemma log_map_app {T} (pick : event -> option T) (l1 l2 : list event) :
  log_map pick (l1 ++ l2) = log_map pick l1 ++ log_map pick l2.
Proof.
  induction l1 as [ | ev l1 IH ]; [ reflexivity | ].
  cbn [app log_map]. destruct (pick ev); rewrite IH; reflexivity.
Qed.

Lemma log_map_none {T} (pick : event -> option T) (log : list event) :
  Forall (fun ev => pick ev = None) log -> log_map pick log = [].
Proof.
  induction 1 as [ | ev log Hev _ IH ]; [ reflexivity | ].
  cbn [log_map]. rewrite Hev. exact IH.
Qed.

(** The rasterizer opens its file once, first, and logs neither a request
    nor a text area nor a progress value. *)
Lemma pdf_to_images_events_shape (w : World) (f : UploadedFile) :
  exists rest,
    events (pdf_to_images w f) = ev_fitz_open (read f) :: rest /\
    Forall (fun ev => opened_of ev = None /\ request_of ev = None /\
                      area_key_of ev = None /\ progress_of ev = None /\
                      report_event ev = false) rest.
Proof.
  unfold pdf_to_images. mrun.
  assert (Hloop : forall doc nums images,
            Forall (fun ev => opened_of ev = None /\ request_of ev = None /\
                              area_key_of ev = None /\ progress_of ev = None /\
                              report_event ev = false)
              (events (pdf_to_images_loop w doc nums images))).
  { intros doc nums. induction nums as [ | n nums IH ]; intros images.
    - constructor.
    - cbn [pdf_to_images_loop].
      repeat (apply Forall_events_bind; [ | intros ? _ ]);
        try (rewrite ?events_lift, ?events_emit; repeat constructor).
      apply IH. }
  destruct (fitz_open w (read f)) as [doc | e]; mrun.
  - destruct (outcome (pdf_to_images_loop w doc (seq 0 (page_count w doc)) []))
      as [images | e]; mrun; eexists;
      (split; [ cbn [app]; reflexivity | ]);
      rewrite ?app_nil_r;
      (apply Forall_app; split; [ apply Hloop | repeat constructor ]).
  - eexists. split; [ cbn [app]; reflexivity | repeat constructor ].
Qed.

(** ** Page numbers as text *)

Lemma lit_inj (a b : string) : lit a = lit b -> a = b.
Proof.
  unfold lit. intros H.
  rewrite <- (string_of_list_ascii_of_string a),
          <- (string_of_list_ascii_of_string b).
  f_equal. revert H.
  generalize (list_ascii_of_string a) (list_ascii_of_string b).
  intros la. induction la as [ | x la IH ]; intros [ | y lb ] H;
    try discriminate; [ reflexivity | ].
  cbn [map] in H. injection H as Hxy Hrest. f_equal.
  - rewrite <- (ascii_N_embedding x), <- (ascii_N_embedding y), Hxy.
    reflexivity.
  - apply IH. exact Hrest.
Qed.

Lemma str_of_nat_inj (a b : nat) : str_of_nat a = str_of_nat b -> a = b.
Proof.
  unfold str_of_nat. intros H. apply lit_inj in H.
  assert (Hu : Nat.to_uint a = Nat.to_uint b).
  { pose proof (NilEmpty.usu (Nat.to_uint a)) as Ha.
    pose proof (NilEmpty.usu (Nat.to_uint b)) as Hb.
    rewrite H in Ha. rewrite Ha in Hb. injection Hb as Hb. exact Hb. }
  rewrite <- (DecimalNat.Unsigned.of_to a), <- (DecimalNat.Unsigned.of_to b), Hu.
  reflexivity.
Qed.

Lemma digits_no_underscore (u : Decimal.uint) :
  ~ In 95%N (lit (NilEmpty.string_of_uint u)).
Proof.
  unfold lit.
  induction u; cbn [NilEmpty.string_of_uint list_ascii_of_string map In];
    [ intros [] | .. ];
    (intros [H | H]; [ vm_compute in H; discriminate H | exact (IHu H) ]).
Qed.

(** Two texts cut at their first [x] are equal piece by piece. *)
Lemma split_at_first {T} (x : T) (l1 l2 r1 r2 : list T) :
  ~ In x l1 -> ~ In x l2 ->
  l1 ++ x :: r1 = l2 ++ x :: r2 -> l1 = l2 /\ r1 = r2.
Proof.
  revert l2. induction l1 as [ | a l1 IH ]; intros [ | b l2 ] H1 H2 H;
    cbn [app] in H.
  - injection H as ->. split; reflexivity.
  - injection H as <- _. exfalso. apply H2. left. reflexivity.
  - injection H as -> _. exfalso. apply H1. left. reflexivity.
  - injection H as -> H.
    destruct (IH l2) as [-> ->]; try assumption.
    + intros Hin. apply H1. right. exact Hin.
    + intros Hin. apply H2. right. exact Hin.
    + split; reflexivity.
Qed.

(** The key of a page text area determines the file name and the page
    number. *)
Lemma page_area_key_inj (name1 name2 : str) (page1 page2 : nat) :
  page_area_key name1 page1 = page_area_key name2 page2 ->
  name1 = name2 /\ page1 = page2.
Proof.
  unfold page_area_key. intros H.
  apply (f_equal (@rev char)) in H.
  change (lit "_") with [95%N] in H.
  rewrite !rev_app_distr in H. cbn [rev app] in H.
  rewrite <- !app_assoc in H. cbn [app] in H.
  apply split_at_first in H.
  - destruct H as [Hd Hn].
    apply (f_equal (@rev char)) in Hd, Hn. rewrite !rev_involutive in Hd, Hn.
    split; [ exact Hn | apply str_of_nat_inj; exact Hd ].
  - rewrite <- in_rev. apply digits_no_underscore.
  - rewrite <- in_rev. apply digits_no_underscore.
Qed.

(** ** What a batch sends and shows, in order *)

Section Projections.

Variable w : World.
Variables (format_template : option str) (client : Client).

Lemma pages_events_requests (pdf_file_name : str) (page_num : nat)
    (images : list Image) :
  log_map request_of
    (pages_events w format_template client pdf_file_name page_num images)
  = map (fun ni => page_request w pdf_file_name format_template (fst ni)
                     (png_of w (snd ni)))
      (combine (seq page_num (List.length images)) images).
Proof.
  revert page_num. induction images as [ | image rest IH ]; intros page_num.
  - reflexivity.
  - cbn [pages_events List.length seq combine map].
    rewrite log_map_app, IH. reflexivity.
Qed.

Lemma pages_events_area_keys (pdf_file_name : str) (page_num : nat)
    (images : list Image) :
  log_map area_key_of
    (pages_events w format_template client pdf_file_name page_num images)
  = map (page_area_key pdf_file_name) (seq page_num (List.length images)).
Proof.
  revert page_num. induction images as [ | image rest IH ]; intros page_num.
  - reflexivity.
  - cbn [pages_events List.length seq map].
    rewrite log_map_app, IH. reflexivity.
Qed.

Lemma pages_events_quiet (pdf_file_name : str) (page_num : nat)
    (images : list Image) :
  log_map opened_of
    (pages_events w format_template client pdf_file_name page_num images) = [] /\
  log_map progress_of
    (pages_events w format_template client pdf_file_name page_num images) = [].
Proof.
  revert page_num. induction images as [ | image rest IH ]; intros page_num.
  - split; reflexivity.
  - cbn [pages_events]. rewrite !log_map_app.
    destruct (IH (S page_num)) as [-> ->]. split; reflexivity.
Qed.

Lemma file_events_projections (total idx : nat) (f : UploadedFile) :
  log_map request_of (file_events w format_template client total idx f)
    = file_requests w format_template f /\
  log_map area_key_of (file_events w format_template client total idx f)
    = file_area_keys w f /\
  log_map opened_of (file_events w format_template client total idx f)
    = [read f] /\
  log_map progress_of (file_events w format_template client total idx f)
    = [(idx + 1, total)].
Proof.
  unfold file_events, file_requests, file_area_keys, pages_of.
  destruct (pdf_to_images_events_shape w f) as (rest & -> & Hrest).
  assert (Hq : log_map opened_of rest = [] /\ log_map request_of rest = [] /\
               log_map area_key_of rest = [] /\ log_map progress_of rest = []).
  { repeat split; apply log_map_none;
      (eapply Forall_impl; [ | exact Hrest ]); cbv beta; tauto. }
  destruct Hq as (Ho & Hr & Hk & Hp).
  rewrite !log_map_app. cbn [log_map request_of area_key_of opened_of progress_of app].
  rewrite ?log_map_app, ?Ho, ?Hr, ?Hk, ?Hp. cbn [app].
  destruct (images_of w f) as [[ | image more] | ]; cbn [log_map request_of area_key_of opened_of progress_of List.length seq combine map];
    try (repeat split; reflexivity).
  rewrite pages_events_requests, pages_events_area_keys.
  destruct (pages_events_quiet (name f) 1 (image :: more)) as [-> ->].
  repeat split; reflexivity.
Qed.

Lemma files_events_projections (total idx : nat) (files : list UploadedFile) :
  log_map request_of (files_events w format_template client total idx files)
    = flat_map (file_requests w format_template) files /\
  log_map area_key_of (files_events w format_template client total idx files)
    = flat_map (file_area_keys w) files /\
  log_map opened_of (files_events w format_template client total idx files)
    = map read files /\
  log_map progress_of (files_events w format_template client total idx files)
    = map (fun k => (k + 1, total)) (seq idx (List.length files)).
Proof.
  revert idx. induction files as [ | f rest IH ]; intros idx.
  - repeat split; reflexivity.
  - cbn [files_events flat_map map List.length seq]. rewrite !log_map_app.
    destruct (file_events_projections total idx f) as (-> & -> & -> & ->).
    destruct (IH (S idx)) as (-> & -> & -> & ->).
    repeat split; reflexivity.
Qed.

End Projections.

(** X7. In a batch where no call raises, the requests sent are exactly
    one per page: file after file in upload order, page after page from
    page 1, each with the prompt of its file name and page number and the
    encoding of its image. *)
Theorem batch_requests_in_order (w : World) (api_key : str)
    (format_template : option str) (client : Client)
    (files : list UploadedFile) (total idx : nat) (results : list Entry) :
  no_hard_failure w api_key files client ->
  log_map request_of
    (events (main_files_loop w api_key format_template total idx files results))
  = flat_map (file_requests w format_template) files /\
  List.length
    (log_map request_of
       (events (main_files_loop w api_key format_template total idx files
                  results)))
  = list_sum (map (fun f => List.length (pages_of w f)) files).
Proof.
  intros Hsoft.
  rewrite (main_files_loop_events w api_key format_template client
             (proj1 Hsoft) total idx files results Hsoft).
  destruct (files_events_projections w format_template client total idx files)
    as (-> & _).
  split; [ reflexivity | ].
  clear Hsoft. induction files as [ | f rest IH ]; [ reflexivity | ].
  cbn [flat_map map list_sum]. rewrite length_app, IH.
  unfold file_requests at 1.
  rewrite length_map, length_combine, length_seq, Nat.min_id. reflexivity.
Qed.

Lemma batch_requests_in_order_witness :
  List.length
    (log_map request_of
       (events (main_files_loop Demo.world Demo.key None 3 0
                  ([Demo.a_pdf] ++ Demo.b_pdf :: [Demo.c_pdf]) [])))
  = 6.
Proof.
  rewrite (proj2 (batch_requests_in_order Demo.world Demo.key None
                    (ClientHandle 0) ([Demo.a_pdf] ++ Demo.b_pdf :: [Demo.c_pdf])
                    3 0 [] demo_no_hard_failure)).
  reflexivity.
Defined.

(** X8. In a batch where no call raises, every file is opened exactly
    once, in upload order. *)
Theorem batch_opens_in_order (w : World) (api_key : str)
    (format_template : option str) (client : Client)
    (files : list UploadedFile) (total idx : nat) (results : list Entry) :
  no_hard_failure w api_key files client ->
  log_map opened_of
    (events (main_files_loop w api_key format_template total idx files results))
  = map read files.
Proof.
  intros Hsoft.
  rewrite (main_files_loop_events w api_key format_template client
             (proj1 Hsoft) total idx files results Hsoft).
  exact (proj1 (proj2 (proj2
           (files_events_projections w format_template client total idx files)))).
Qed.

Lemma batch_opens_in_order_witness :
  log_map opened_of
    (events (main_files_loop Demo.world Demo.key None 3 0
               ([Demo.a_pdf] ++ Demo.b_pdf :: [Demo.c_pdf]) []))
  = [[1; 1]; [9; 3]; [2; 2]]%N.
Proof.
  rewrite (batch_opens_in_order Demo.world Demo.key None (ClientHandle 0)
             ([Demo.a_pdf] ++ Demo.b_pdf :: [Demo.c_pdf]) 3 0 []
             demo_no_hard_failure).
  reflexivity.
Defined.

(** ** Widget keys *)

Lemma file_area_keys_NoDup (w : World) (f : UploadedFile) :
  NoDup (file_area_keys w f).
Proof.
  unfold file_area_keys.
  apply NoDup_map_NoDup_ForallPairs; [ | apply seq_NoDup ].
  intros a b _ _ H. exact (proj2 (page_area_key_inj _ _ _ _ H)).
Qed.

Lemma flat_map_area_keys_name (w : World) (files : list UploadedFile)
    (key : str) :
  In key (flat_map (file_area_keys w) files) ->
  exists f page_num, In f files /\ key = page_area_key (name f) page_num.
Proof.
  intros H. apply in_flat_map in H. destruct H as (f & Hf & Hk).
  unfold file_area_keys in Hk. apply in_map_iff in Hk.
  destruct Hk as (n & <- & _). exists f, n. split; [ exact Hf | reflexivity ].
Qed.

(** X9. In a batch where no call raises and the file names are pairwise
    different, the page text areas all get different keys. *)
Theorem batch_area_keys_distinct (w : World) (api_key : str)
    (format_template : option str) (client : Client)
    (files : list UploadedFile) (total idx : nat) (results : list Entry) :
  no_hard_failure w api_key files client ->
  NoDup (map name files) ->
  NoDup (log_map area_key_of
           (events (main_files_loop w api_key format_template total idx files
                      results))).
Proof.
  intros Hsoft Hnames.
  rewrite (main_files_loop_events w api_key format_template client
             (proj1 Hsoft) total idx files results Hsoft).
  rewrite (proj1 (proj2
             (files_events_projections w format_template client total idx files))).
  clear Hsoft. induction files as [ | f rest IH ]; [ constructor | ].
  cbn [flat_map map] in *. inversion Hnames as [ | x l Hnotin Hrest ]; subst.
  apply NoDup_app.
  - apply file_area_keys_NoDup.
  - apply IH. exact Hrest.
  - intros key Hk Hk'.
    unfold file_area_keys in Hk. apply in_map_iff in Hk.
    destruct Hk as (n & <- & _).
    destruct (flat_map_area_keys_name w rest _ Hk') as (g & m & Hg & Heq).
    apply page_area_key_inj in Heq. destruct Heq as [Hname _].
    apply Hnotin. rewrite Hname. apply in_map. exact Hg.
Qed.

Lemma batch_area_keys_distinct_witness :
  NoDup (log_map area_key_of
           (events (main_files_loop Demo.world Demo.key None 3 0
                      ([Demo.a_pdf] ++ Demo.b_pdf :: [Demo.c_pdf]) []))).
Proof.
  apply (batch_area_keys_distinct Demo.world Demo.key None (ClientHandle 0)
           ([Demo.a_pdf] ++ Demo.b_pdf :: [Demo.c_pdf]) 3 0 []
           demo_no_hard_failure).
  repeat constructor; cbn [In map app]; intros H;
    repeat (destruct H as [H | H]; [ vm_compute in H; discriminate H | ]);
    exact H.
Defined.

(** X10. In a batch where no call raises, two files with the same name
    that both have pages give the text area of their first page the same
    key. *)
Theorem batch_area_keys_clash (w : World) (api_key : str)
    (format_template : option str) (client : Client)
    (l1 l2 l3 : list UploadedFile) (f g : UploadedFile)
    (total idx : nat) (results : list Entry) :
  no_hard_failure w api_key (l1 ++ f :: l2 ++ g :: l3) client ->
  name f = name g ->
  pages_of w f <> [] -> pages_of w g <> [] ->
  exists k1 k2 k3,
    log_map area_key_of
      (events (main_files_loop w api_key format_template total idx
                 (l1 ++ f :: l2 ++ g :: l3) results))
    = k1 ++ page_area_key (name f) 1 :: k2 ++ page_area_key (name f) 1 :: k3.
Proof.
  intros Hsoft Hname Hf Hg.
  rewrite (main_files_loop_events w api_key format_template client
             (proj1 Hsoft) total idx _ results Hsoft).
  rewrite (proj1 (proj2
             (files_events_projections w format_template client total idx _))).
  assert (Hfirst : forall h, pages_of w h <> [] ->
            exists tl, file_area_keys w h = page_area_key (name h) 1 :: tl).
  { intros h Hh. unfold file_area_keys.
    destruct (pages_of w h) as [ | im ims ]; [ contradiction | ].
    cbn [List.length seq map]. eexists. reflexivity. }
  destruct (Hfirst f Hf) as [tf Htf]. destruct (Hfirst g Hg) as [tg Htg].
  rewrite flat_map_app. cbn [flat_map]. rewrite flat_map_app. cbn [flat_map].
  rewrite Htf, Htg, <- Hname.
  exists (flat_map (file_area_keys w) l1),
         (tf ++ flat_map (file_area_keys w) l2),
         (tg ++ flat_map (file_area_keys w) l3).
  cbn [app]. rewrite <- !app_assoc. reflexivity.
Qed.

Lemma demo_same_name_no_hard_failure :
  no_hard_failure Demo.world Demo.key
    ([] ++ Demo.a_pdf :: [] ++ Demo.a_pdf_bis :: []) (ClientHandle 0).
Proof.
  split; [ reflexivity | ].
  intros f images image Hf Himg Hin.
  destruct Hf as [<- | [<- | []]]; vm_compute in Himg;
    injection Himg as <-;
    repeat (destruct Hin as [<- | Hin]; [ eexists; reflexivity | ]);
    destruct Hin.
Qed.

Lemma batch_area_keys_clash_witness :
  exists k1 k2 k3,
    log_map area_key_of
      (events (main_files_loop Demo.world Demo.key None 2 0
                 ([] ++ Demo.a_pdf :: [] ++ Demo.a_pdf_bis :: []) []))
    = k1 ++ page_area_key (lit "a.pdf") 1 :: k2
         ++ page_area_key (lit "a.pdf") 1 :: k3.
Proof.
  apply (batch_area_keys_clash Demo.world Demo.key None (ClientHandle 0)
           [] [] [] Demo.a_pdf Demo.a_pdf_bis 2 0 []
           demo_same_name_no_hard_failure eq_refl).
  - vm_compute. discriminate.
  - vm_compute. discriminate.
Defined.

(** ** The full-text section *)

Lemma main_full_text_loop_events (results rest : list Entry) (idx : nat) :
  events (main_full_text_loop results idx rest)
  = flat_map (fun ir => full_text_events results (fst ir) (snd ir))
      (combine (seq idx (List.length rest)) rest).
Proof.
  revert idx. induction rest as [ | r rest IH ]; intros idx.
  - reflexivity.
  - cbn [main_full_text_loop List.length seq combine flat_map]. mrun.
    rewrite IH. reflexivity.
Qed.

Lemma full_text_keys (results rest : list Entry) (idx : nat) :
  log_map area_key_of (events (main_full_text_loop results idx rest))
  = map (fun i => lit "full_" ++ str_of_nat i) (seq idx (List.length rest)).
Proof.
  rewrite main_full_text_loop_events. revert idx.
  induction rest as [ | r rest IH ]; intros idx; [ reflexivity | ].
  cbn [List.length seq combine flat_map map]. rewrite log_map_app, IH.
  reflexivity.
Qed.

(** X11. The full-text section shows one text area per entry of the
    report, with the keys [full_0], [full_1], ... in the order of the
    report; no two of them are equal. *)
Theorem full_text_keys_distinct (results : list Entry) :
  log_map area_key_of (events (main_full_text_loop results 0 results))
  = map (fun i => lit "full_" ++ str_of_nat i) (seq 0 (List.length results)) /\
  NoDup (log_map area_key_of (events (main_full_text_loop results 0 results))).
Proof.
  split; [ apply full_text_keys | ].
  rewrite full_text_keys.
  apply NoDup_map_NoDup_ForallPairs; [ | apply seq_NoDup ].
  intros a b _ _ H. apply app_inv_head in H. apply str_of_nat_inj. exact H.
Qed.

(** ** Progress *)

Lemma main_full_text_loop_no_progress (results rest : list Entry) (idx : nat) :
  log_map progress_of (events (main_full_text_loop results idx rest)) = [].
Proof.
  rewrite main_full_text_loop_events. revert idx.
  induction rest as [ | x rest IH ]; intros idx; [ reflexivity | ].
  cbn [List.length seq combine flat_map]. rewrite log_map_app, IH.
  reflexivity.
Qed.

Lemma main_report_no_progress (w : World) (results : list Entry) :
  log_map progress_of (events (main_report w results)) = [].
Proof.
  destruct results as [ | r results ]; [ reflexivity | ].
  unfold main_report. mrun. rewrite !log_map_app.
  rewrite main_full_text_loop_no_progress. reflexivity.
Qed.



(** ** The shape of the report *)

Lemma preview_len (t : str) : len (preview t) <= 503.
Proof.
  destruct (Nat.le_gt_cases (len t) PREVIEW_CAP) as [Hle | Hgt].
  - rewrite (preview_short t Hle). unfold PREVIEW_CAP in Hle. lia.
  - rewrite (preview_long t Hgt). unfold len, slice_to.
    rewrite length_app, length_firstn. fold (len ELLIPSIS).
    rewrite len_ELLIPSIS. unfold PREVIEW_CAP. lia.
Qed.

Lemma file_entries_shape (w : World) (api_key : str)
    (format_template : option str) (f : UploadedFile) (es : list Entry) :
  file_entries w api_key format_template f = Ok es ->
  map Filename es = map name (filter (has_pages w) [f]) /\
  map Pages es
  = map (fun g => List.length (pages_of w g)) (filter (has_pages w) [f]) /\
  Forall (fun e => 1 <= Pages e /\ len (Extracted_Text e) <= 503) es.
Proof.
  unfold file_entries, has_pages, pages_of. cbn [filter].
  destruct (images_of w f) as [[ | image more] | ] eqn:E.
  - intros H. injection H as <-. repeat split; constructor.
  - destruct (page_texts w api_key (name f) format_template 1 (image :: more))
      as [ts | e]; [ | discriminate ].
    intros H. injection H as <-. cbn [map]. rewrite E.
    repeat split; try reflexivity.
    constructor; [ | constructor ]. cbn [Pages Extracted_Text List.length].
    split; [ lia | apply preview_len ].
  - intros H. injection H as <-. repeat split; constructor.
Qed.

Lemma run_files_shape (w : World) (api_key : str)
    (format_template : option str) (files : list UploadedFile)
    (results r : list Entry) :
  run_files w api_key format_template files results = Ok r ->
  exists added,
    r = results ++ added /\
    map Filename added = map name (filter (has_pages w) files) /\
    map Pages added
    = map (fun g => List.length (pages_of w g)) (filter (has_pages w) files) /\
    Forall (fun e => 1 <= Pages e /\ len (Extracted_Text e) <= 503) added.
Proof.
  revert results. induction files as [ | f rest IH ]; intros results H.
  - cbn in H. injection H as <-. exists []. rewrite app_nil_r.
    repeat split; constructor.
  - cbn [run_files] in H.
    destruct (file_entries w api_key format_template f) as [es | e] eqn:E;
      [ | discriminate ].
    destruct (file_entries_shape w api_key format_template f es E)
      as (Hn & Hp & Hall).
    destruct (IH (results ++ es) H) as (added & -> & Hn' & Hp' & Hall').
    exists (es ++ added). rewrite app_assoc. split; [ reflexivity | ].
    change (f :: rest) with ([f] ++ rest). rewrite filter_app, !map_app.
    rewrite Hn, Hp, Hn', Hp'. repeat split; try reflexivity.
    apply Forall_app. split; assumption.
Qed.

(** X13. When the loop over the documents returns, the report lists
    exactly the files that have pages, in upload order, each with the
    number of its pages (at least 1) and a text of at most 503 characters;
    it has at most as many entries as files were uploaded. *)
Theorem report_shape (w : World) (api_key : str)
    (format_template : option str) (total idx : nat)
    (files : list UploadedFile) (r : list Entry) :
  outcome (main_files_loop w api_key format_template total idx files []) = Ok r ->
  map Filename r = map name (filter (has_pages w) files) /\
  map Pages r
  = map (fun g => List.length (pages_of w g)) (filter (has_pages w) files) /\
  Forall (fun e => 1 <= Pages e /\ len (Extracted_Text e) <= 503) r /\
  List.length r <= List.length files.
Proof.
  rewrite main_files_loop_outcome. intros H.
  destruct (run_files_shape w api_key format_template files [] r H)
    as (added & -> & Hn & Hp & Hall).
  cbn [app]. split; [ exact Hn | ]. split; [ exact Hp | ].
  split; [ exact Hall | ].
  rewrite <- (length_map Filename), Hn, length_map. apply filter_length_le.
Qed.

Lemma report_shape_witness :
  map Filename
    [mkEntry (lit "a.pdf") 1 (page_block 1 (lit "text 100"));
     mkEntry (lit "c.pdf") 2
       (page_block 1 (lit "text 200") ++ page_block 2 (lit "text 201"))]
  = map name
      (filter (has_pages Demo.world)
         [Demo.a_pdf; Demo.empty_pdf; Demo.broken_pdf; Demo.c_pdf]).
Proof.
  refine (proj1 (report_shape Demo.world Demo.key None 4 0
            [Demo.a_pdf; Demo.empty_pdf; Demo.broken_pdf; Demo.c_pdf] _ _)).
  vm_compute. reflexivity.
Defined.

(** ** When the full-text view is exact *)

Lemma replace_from_absent (old new s : str) :
  occurrences old s = 0 -> replace_from old new 0 s = s.
Proof.
  induction s as [ | c s IH ]; [ reflexivity | ].
  cbn [occurrences replace_from].
  destruct (startswith old (c :: s)); [ discriminate | ].
  intros H. rewrite IH by exact H. reflexivity.
Qed.

Lemma next_extracted_text_unique (results : list Entry) (r : Entry) :
  NoDup (map Filename results) -> In r results ->
  next_extracted_text results (Filename r) = Extracted_Text r.
Proof.
  intros Hnd Hin. destruct (in_split r results Hin) as (before & after & ->).
  apply next_extracted_text_first. intros r' Hr' Heq.
  rewrite map_app in Hnd. cbn [map] in Hnd.
  apply NoDup_remove_2 in Hnd. apply Hnd. apply in_or_app. left.
  rewrite <- Heq. apply in_map. exact Hr'.
Qed.

(** X14. For a report whose file names are pairwise different, the
    full-text area of a document whose text has at most 500 characters
    and holds no ["..."] shows exactly that text. *)
Theorem full_text_view_exact (results : list Entry) (r : Entry)
    (pdf_text : str) :
  NoDup (map Filename results) ->
  In r results ->
  Extracted_Text r = preview pdf_text ->
  len pdf_text <= 500 ->
  occurrences (lit "...") pdf_text = 0 ->
  full_text_shown results r = pdf_text.
Proof.
  intros Hnd Hin Htext Hlen Hocc. unfold full_text_shown.
  rewrite (next_extracted_text_unique results r Hnd Hin), Htext.
  rewrite (preview_short pdf_text Hlen).
  exact (replace_from_absent ELLIPSIS [] pdf_text Hocc).
Qed.

Lemma full_text_view_exact_witness :
  full_text_shown
    [mkEntry (lit "a.pdf") 1 (page_block 1 (lit "text 100"));
     mkEntry (lit "c.pdf") 1 (page_block 1 (lit "text 200"))]
    (mkEntry (lit "c.pdf") 1 (page_block 1 (lit "text 200")))
  = page_block 1 (lit "text 200").
Proof.
  apply full_text_view_exact.
  - repeat constructor; cbn [In map]; intros H;
      repeat (destruct H as [H | H]; [ vm_compute in H; discriminate H | ]);
      exact H.
  - right. left. reflexivity.
  - vm_compute. reflexivity.
  - vm_compute. lia.
  - vm_compute. reflexivity.
Defined.

(** ** A call that raises *)

Section Quiet.

Variable w : World.
Variables (api_key : str) (format_template : option str).

Lemma extract_text_with_claude_quiet (image : Image) (filename : str) :
  Forall quiet_event
    (events (extract_text_with_claude w image api_key filename format_template)).
Proof.
  unfold extract_text_with_claude, encode_image.
  repeat (apply Forall_events_bind; [ | intros ? _ ]);
    try (rewrite ?events_lift, ?events_ret; constructor).
  apply Forall_events_try_except.
  - repeat (apply Forall_events_bind; [ | intros ? _ ]);
      try (rewrite ?events_lift, ?events_emit; repeat constructor).
    match goal with
    | |- context [content ?r] => destruct (content r)
    end; [ rewrite events_raise | rewrite events_ret ]; constructor.
  - intros e _. rewrite events_ret. constructor.
Qed.

Lemma main_pages_loop_quiet (pdf_file_name : str) (page_num : nat)
    (images : list Image) (pdf_text : str) :
  Forall quiet_event
    (events (main_pages_loop w api_key pdf_file_name format_template page_num
               images pdf_text)).
Proof.
  revert page_num pdf_text.
  induction images as [ | image rest IH ]; intros page_num pdf_text.
  - constructor.
  - cbn [main_pages_loop]. cbv zeta.
    do 4 (apply Forall_events_bind;
          [ rewrite events_emit; repeat constructor | intros ? _ ]).
    apply Forall_events_bind;
      [ apply extract_text_with_claude_quiet | intros ? _ ].
    apply Forall_events_bind;
      [ rewrite events_emit; repeat constructor | intros ? _ ].
    apply IH.
Qed.

Lemma main_file_body_opened (total idx : nat) (f : UploadedFile)
    (results : list Entry) :
  log_map opened_of
    (events (main_file_body w api_key format_template total idx f results))
  = [read f] /\
  Forall (fun ev => report_event ev = false)
    (events (main_file_body w api_key format_template total idx f results)).
Proof.
  unfold main_file_body. mrun. rewrite pdf_to_images_outcome.
  destruct (pdf_to_images_events_shape w f) as (rest & -> & Hrest).
  assert (Ho : log_map opened_of rest = []).
  { apply log_map_none. eapply Forall_impl; [ | exact Hrest ].
    cbv beta. tauto. }
  assert (Hr : Forall (fun ev => report_event ev = false) rest).
  { eapply Forall_impl; [ | exact Hrest ]. cbv beta. tauto. }
  assert (Hp : forall images,
            log_map opened_of
              (events (main_pages_loop w api_key (name f) format_template 1
                         images [])) = [] /\
            Forall (fun ev => report_event ev = false)
              (events (main_pages_loop w api_key (name f) format_template 1
                         images []))).
  { intros images.
    pose proof (main_pages_loop_quiet (name f) 1 images []) as Hq.
    split.
    - apply log_map_none. eapply Forall_impl; [ | exact Hq ].
      intros ev [H _]. exact H.
    - eapply Forall_impl; [ | exact Hq ]. intros ev [_ H]. exact H. }
  rewrite !log_map_app. cbn [log_map opened_of app]. rewrite Ho.
  destruct (images_of w f) as [[ | image more] | ]; mrun;
    rewrite ?log_map_app; cbn [log_map opened_of app].
  - split; [ reflexivity | ].
    repeat (apply Forall_cons; [ reflexivity | ]). rewrite app_nil_r. exact Hr.
  - destruct (Hp (image :: more)) as [Hpo Hpr]. rewrite Hpo.
    split.
    + destruct (outcome (main_pages_loop w api_key (name f) format_template 1
                           (image :: more) [])); mrun; reflexivity.
    + repeat (apply Forall_cons; [ reflexivity | ]).
      apply Forall_app. split; [ exact Hr | ].
      apply Forall_cons; [ reflexivity | ].
      apply Forall_app. split; [ exact Hpr | ].
      destruct (outcome (main_pages_loop w api_key (name f) format_template 1
                           (image :: more) [])); mrun; constructor.
  - split; [ reflexivity | ].
    repeat (apply Forall_cons; [ reflexivity | ]). rewrite app_nil_r. exact Hr.
Qed.

Lemma main_files_loop_no_report (total idx : nat) (files : list UploadedFile)
    (results : list Entry) :
  Forall (fun ev => report_event ev = false)
    (events (main_files_loop w api_key format_template total idx files results)).
Proof.
  revert idx results.
  induction files as [ | f rest IH ]; intros idx results.
  - constructor.
  - cbn [main_files_loop]. apply Forall_events_bind.
    + apply main_file_body_opened.
    + intros r _. apply IH.
Qed.

Lemma page_texts_raise (client : Client) (pdf_file_name : str)
    (page_num : nat) (imgs1 imgs2 : list Image) (image : Image) (e : exn) :
  Anthropic w api_key = Ok client ->
  (forall im, In im imgs1 -> exists png, Image_save w im = Ok png) ->
  Image_save w image = Raise e ->
  page_texts w api_key pdf_file_name format_template page_num
    (imgs1 ++ image :: imgs2) = Raise e.
Proof.
  intros Hc Hall Hfail. revert page_num.
  induction imgs1 as [ | im imgs1 IH ]; intros page_num.
  - cbn [app page_texts]. unfold extracted.
    rewrite extract_text_with_claude_outcome, Hc, Hfail. reflexivity.
  - destruct (Hall im (or_introl eq_refl)) as [png Hpng].
    cbn [app page_texts].
    rewrite (extracted_soft w api_key format_template client Hc
               pdf_file_name page_num im png Hpng).
    rewrite IH by (intros im' Him'; apply Hall; right; exact Him').
    reflexivity.
Qed.

End Quiet.

(** X15. When the image of a page cannot be encoded, the whole run stops
    there: [main]'s processing block raises that failure, no report is
    shown, not even for the documents already processed, and the files
    after the failing one are never opened. *)
Theorem encoding_failure_aborts (w : World) (api_key : str)
    (format_template : option str) (client : Client)
    (before after : list UploadedFile) (d : UploadedFile)
    (imgs1 imgs2 : list Image) (image : Image) (e : exn) :
  no_hard_failure w api_key before client ->
  images_of w d = Some (imgs1 ++ image :: imgs2) ->
  (forall im, In im imgs1 -> exists png, Image_save w im = Ok png) ->
  Image_save w image = Raise e ->
  let run := main_process w api_key format_template (before ++ d :: after) in
  outcome run = Raise e /\
  Forall (fun ev => report_event ev = false) (events run) /\
  log_map opened_of (events run) = map read (before ++ [d]).
Proof.
  intros Hsoft Himg Hall Hfail run. destruct Hsoft as [Hc Hsaves].
  assert (Hsoft : no_hard_failure w api_key before client) by (split; assumption).
  assert (Hd : file_entries w api_key format_template d = Raise e).
  { unfold file_entries. rewrite Himg.
    destruct (imgs1 ++ image :: imgs2) as [ | i0 m0 ] eqn:E.
    - destruct imgs1; discriminate E.
    - rewrite <- E.
      rewrite (page_texts_raise w api_key format_template client (name d) 1
                 imgs1 imgs2 image e Hc Hall Hfail).
      reflexivity. }
  destruct (run_files_soft w api_key format_template client Hc before [] Hsoft)
    as (r & Hr & _).
  assert (Hrun : run_files w api_key format_template (before ++ d :: after) []
                 = Raise e).
  { rewrite run_files_app, Hr. cbn [run_files]. rewrite Hd. reflexivity. }
  assert (Hbefore : outcome (main_files_loop w api_key format_template
                               (List.length (before ++ d :: after)) 0 before [])
                    = Ok r).
  { rewrite main_files_loop_outcome. exact Hr. }
  unfold run. split; [ rewrite main_process_outcome, Hrun; reflexivity | ].
  rewrite main_process_events, Hrun, app_nil_r.
  split.
  - apply Forall_cons; [ reflexivity | apply main_files_loop_no_report ].
  - cbn [app log_map opened_of].
    rewrite (main_files_loop_events_split w api_key format_template _ 0
               before after d [] r Hbefore).
    rewrite main_file_body_outcome, Hd, app_nil_r, !log_map_app.
    rewrite (main_files_loop_events w api_key format_template client Hc
               _ 0 before [] Hsoft).
    rewrite (proj1 (proj2 (proj2
               (files_events_projections w format_template client _ 0 before)))).
    rewrite (proj1 (main_file_body_opened w api_key format_template _ _ d r)).
    rewrite map_app. reflexivity.
Qed.

Lemma encoding_failure_aborts_witness :
  outcome (main_process Demo.world Demo.key None
             ([Demo.a_pdf] ++ Demo.pdf "cmyk.pdf" 8 2 :: [Demo.c_pdf]))
  = Raise (Exception (lit "cannot write mode CMYK as PNG")) /\
  log_map opened_of
    (events (main_process Demo.world Demo.key None
               ([Demo.a_pdf] ++ Demo.pdf "cmyk.pdf" 8 2 :: [Demo.c_pdf])))
  = [[1; 1]; [8; 2]]%N.
Proof.
  destruct (encoding_failure_aborts Demo.world Demo.key None (ClientHandle 0)
              [Demo.a_pdf] [Demo.c_pdf] (Demo.pdf "cmyk.pdf" 8 2)
              [] [ImageHandle 801] (ImageHandle 800)
              (Exception (lit "cannot write mode CMYK as PNG")))
    as (Hout & _ & Hopen).
  - split; [ reflexivity | ].
    intros f images image [<- | []] Himg Hin. vm_compute in Himg.
    injection Himg as <-. destruct Hin as [<- | []]. eexists. reflexivity.
  - reflexivity.
  - intros im [].
  - reflexivity.
  - split; [ exact Hout | exact Hopen ].
Defined.

(** ** Configuration and login *)

Lemma str_eqb_refl (a : str) : str_eqb a a = true.
Proof. apply str_eqb_eq. reflexivity. Qed.

Lemma str_eqb_neq (a b : str) : a <> b -> str_eqb a b = false.
Proof.
  intros H. destruct (str_eqb a b) eqn:E; [ | reflexivity ].
  apply str_eqb_eq in E. contradiction.
Qed.

Lemma get_config_default_some (c : Config) (key default : str) :
  exists v, get_config c key (Some default) = Some v.
Proof.
  unfold get_config, os_getenv.
  destruct (secrets c) as [s | ]; [ destruct (s key) | ];
    try (eexists; reflexivity);
    destruct (environ c key); eexists; reflexivity.
Qed.

Section Login.

Variable c : Config.
Variable session_state : dict pyval.
Variables (username password email secret : str).
Hypothesis form_username :
  session_state (lit "username") = Some (PyStr username).
Hypothesis form_password :
  session_state (lit "password") = Some (PyStr password).
Hypothesis config_email :
  get_config c (lit "AUTH_EMAIL") (Some (lit "admin@example.com")) = Some email.
Hypothesis config_password :
  get_config c (lit "AUTH_PASSWORD") (Some (lit "admin123")) = Some secret.

Lemma password_entered_match :
  username = email -> password = secret ->
  password_entered c session_state
  = Ok (dict_del
          (dict_del (dict_set session_state (lit "password_correct")
                       (PyBool true))
             (lit "password"))
          (lit "username")).
Proof.
  intros Hu Hp. unfold password_entered, dict_getitem.
  rewrite form_username, form_password, config_email, config_password.
  cbn [pyval_eq_config]. rewrite Hu, Hp, !str_eqb_refl. reflexivity.
Qed.

Lemma password_entered_mismatch :
  ~ (username = email /\ password = secret) ->
  password_entered c session_state
  = Ok (dict_set session_state (lit "password_correct") (PyBool false)).
Proof.
  intros Hno. unfold password_entered, dict_getitem.
  rewrite form_username, form_password, config_email, config_password.
  cbn [pyval_eq_config].
  destruct (str_eqb username email) eqn:Eu; [ | reflexivity ].
  destruct (str_eqb password secret) eqn:Ep; [ | reflexivity ].
  apply str_eqb_eq in Eu, Ep. exfalso. apply Hno. split; assumption.
Qed.

End Login.

(** X16. The login callback marks the session as logged in exactly when
    the user name and the password both equal the configured ones.  On
    success it removes both from the session and leaves every other key
    as it was; on failure the typed user name and password stay in the
    session. *)
Theorem password_entered_outcome (c : Config) (session_state : dict pyval)
    (username password email secret : str) :
  session_state (lit "username") = Some (PyStr username) ->
  session_state (lit "password") = Some (PyStr password) ->
  get_config c (lit "AUTH_EMAIL") (Some (lit "admin@example.com")) = Some email ->
  get_config c (lit "AUTH_PASSWORD") (Some (lit "admin123")) = Some secret ->
  exists after,
    password_entered c session_state = Ok after /\
    (after (lit "password_correct") = Some (PyBool true) <->
     username = email /\ password = secret) /\
    (username = email /\ password = secret ->
     after (lit "password") = None /\ after (lit "username") = None /\
     forall key,
       key <> lit "password_correct" -> key <> lit "password" ->
       key <> lit "username" -> after key = session_state key) /\
    (~ (username = email /\ password = secret) ->
     after (lit "password_correct") = Some (PyBool false) /\
     after (lit "password") = Some (PyStr password) /\
     after (lit "username") = Some (PyStr username)).
Proof.
  intros Hu Hp He Hs.
  destruct (list_eq_dec N.eq_dec username email) as [Eu | Eu];
    [ destruct (list_eq_dec N.eq_dec password secret) as [Ep | Ep] | ].
  - eexists. split.
    { exact (password_entered_match c session_state username password email
               secret Hu Hp He Hs Eu Ep). }
    split; [ | split ].
    + split; [ intros _; split; assumption | intros _; reflexivity ].
    + intros _. split; [ reflexivity | ]. split; [ reflexivity | ].
      intros key H1 H2 H3. unfold dict_del, dict_set.
      rewrite (str_eqb_neq _ _ H3), (str_eqb_neq _ _ H2), (str_eqb_neq _ _ H1).
      reflexivity.
    + intros Hno. exfalso. apply Hno. split; assumption.
  - eexists. split.
    { apply (password_entered_mismatch c session_state username password email
               secret Hu Hp He Hs). intros [_ H]. contradiction. }
    split; [ | split ].
    + split; [ intros H; discriminate H | intros [_ H]; contradiction ].
    + intros [_ H]. contradiction.
    + intros _. unfold dict_set. cbn in Hp, Hu |- *. rewrite Hp, Hu.
      repeat split; reflexivity.
  - eexists. split.
    { apply (password_entered_mismatch c session_state username password email
               secret Hu Hp He Hs). intros [H _]. contradiction. }
    split; [ | split ].
    + split; [ intros H; discriminate H | intros [H _]; contradiction ].
    + intros [H _]. contradiction.
    + intros _. unfold dict_set. cbn in Hp, Hu |- *. rewrite Hp, Hu.
      repeat split; reflexivity.
Qed.

Lemma password_entered_outcome_witness :
  exists after,
    password_entered (mkConfig None dict_empty)
      (login_form_session (lit "admin@example.com") (lit "wrong")) = Ok after /\
    after (lit "password_correct") = Some (PyBool false) /\
    after (lit "password") = Some (PyStr (lit "wrong")).
Proof.
  destruct (password_entered_outcome (mkConfig None dict_empty)
              (login_form_session (lit "admin@example.com") (lit "wrong"))
              (lit "admin@example.com") (lit "wrong")
              (lit "admin@example.com") (lit "admin123")
              eq_refl eq_refl eq_refl eq_refl)
    as (after & Hrun & _ & _ & Hfail).
  exists after. split; [ exact Hrun | ].
  destruct Hfail as (Hflag & Hpw & _).
  - intros [_ H]. vm_compute in H. discriminate H.
  - split; assumption.
Defined.

(** X17. With nothing configured, neither in the secrets nor in the
    environment, the login accepts exactly the user [admin@example.com]
    with the password [admin123]. *)
Theorem default_credentials (c : Config) (session_state : dict pyval)
    (username password : str) :
  (forall s, secrets c = Some s ->
     s (lit "AUTH_EMAIL") = None /\ s (lit "AUTH_PASSWORD") = None) ->
  environ c (lit "AUTH_EMAIL") = None ->
  environ c (lit "AUTH_PASSWORD") = None ->
  session_state (lit "username") = Some (PyStr username) ->
  session_state (lit "password") = Some (PyStr password) ->
  exists after,
    password_entered c session_state = Ok after /\
    (after (lit "password_correct") = Some (PyBool true) <->
     username = lit "admin@example.com" /\ password = lit "admin123").
Proof.
  intros Hsec He Hp Hu Hpw.
  assert (Hcfg : get_config c (lit "AUTH_EMAIL") (Some (lit "admin@example.com"))
                 = Some (lit "admin@example.com") /\
                 get_config c (lit "AUTH_PASSWORD") (Some (lit "admin123"))
                 = Some (lit "admin123")).
  { unfold get_config, os_getenv. rewrite He, Hp.
    destruct (secrets c) as [s | ]; [ | split; reflexivity ].
    destruct (Hsec s eq_refl) as [-> ->]. split; reflexivity. }
  destruct Hcfg as [Hce Hcp].
  destruct (list_eq_dec N.eq_dec username (lit "admin@example.com")) as [Eu | Eu];
    [ destruct (list_eq_dec N.eq_dec password (lit "admin123")) as [Ep | Ep] | ].
  - eexists. split.
    { exact (password_entered_match c session_state username password _ _
               Hu Hpw Hce Hcp Eu Ep). }
    split; [ intros _; split; assumption | intros _; reflexivity ].
  - eexists. split.
    { apply (password_entered_mismatch c session_state username password _ _
               Hu Hpw Hce Hcp). intros [_ H]. contradiction. }
    split; [ intros H; discriminate H | intros [_ H]; contradiction ].
  - eexists. split.
    { apply (password_entered_mismatch c session_state username password _ _
               Hu Hpw Hce Hcp). intros [H _]. contradiction. }
    split; [ intros H; discriminate H | intros [H _]; contradiction ].
Qed.

Lemma default_credentials_witness :
  exists after,
    password_entered (mkConfig (Some dict_empty) dict_empty)
      (login_form_session (lit "admin@example.com") (lit "admin123")) = Ok after /\
    after (lit "password_correct") = Some (PyBool true).
Proof.
  destruct (default_credentials (mkConfig (Some dict_empty) dict_empty)
              (login_form_session (lit "admin@example.com") (lit "admin123"))
              (lit "admin@example.com") (lit "admin123"))
    as (after & Hrun & Hiff); try reflexivity.
  - intros s Hs. injection Hs as <-. split; reflexivity.
  - exists after. split; [ exact Hrun | ].
    apply Hiff. split; reflexivity.
Defined.

(** X18. A password set in the secrets is the one the login checks: the
    password of the environment, when it differs, does not log in. *)
Theorem secrets_override_environment (c : Config) (s : dict str)
    (session_state : dict pyval) (username password email from_secrets
     from_environ : str) :
  secrets c = Some s ->
  s (lit "AUTH_PASSWORD") = Some from_secrets ->
  environ c (lit "AUTH_PASSWORD") = Some from_environ ->
  from_environ <> from_secrets ->
  get_config c (lit "AUTH_EMAIL") (Some (lit "admin@example.com")) = Some email ->
  session_state (lit "username") = Some (PyStr username) ->
  session_state (lit "password") = Some (PyStr password) ->
  get_config c (lit "AUTH_PASSWORD") (Some (lit "admin123")) = Some from_secrets /\
  (password = from_environ ->
   password_entered c session_state
   = Ok (dict_set session_state (lit "password_correct") (PyBool false))).
Proof.
  intros Hs Hsec Henv Hdiff Hemail Hu Hp.
  assert (Hcfg : get_config c (lit "AUTH_PASSWORD") (Some (lit "admin123"))
                 = Some from_secrets).
  { unfold get_config. rewrite Hs, Hsec. reflexivity. }
  split; [ exact Hcfg | ].
  intros ->.
  apply (password_entered_mismatch c session_state username from_environ email
           from_secrets Hu Hp Hemail Hcfg).
  intros [_ H]. contradiction.
Qed.

Lemma secrets_override_environment_witness :
  password_entered
    (mkConfig (Some (dict_set dict_empty (lit "AUTH_PASSWORD") (lit "s3cret")))
       (dict_set dict_empty (lit "AUTH_PASSWORD") (lit "old")))
    (login_form_session (lit "admin@example.com") (lit "old"))
  = Ok (dict_set (login_form_session (lit "admin@example.com") (lit "old"))
          (lit "password_correct") (PyBool false)).
Proof.
  refine (proj2 (secrets_override_environment
            (mkConfig
               (Some (dict_set dict_empty (lit "AUTH_PASSWORD") (lit "s3cret")))
               (dict_set dict_empty (lit "AUTH_PASSWORD") (lit "old")))
            (dict_set dict_empty (lit "AUTH_PASSWORD") (lit "s3cret"))
            (login_form_session (lit "admin@example.com") (lit "old"))
            (lit "admin@example.com") (lit "old") (lit "admin@example.com")
            (lit "s3cret") (lit "old")
            eq_refl eq_refl eq_refl _ eq_refl eq_refl eq_refl) eq_refl).
  intros H. vm_compute in H. discriminate H.
Defined.

(** X19. After the login callback has run on a filled form, the next run
    of [main] passes the login without showing the form when the
    credentials matched; otherwise it shows the title, the form and the
    message that the user is not known, and nothing else. *)
Theorem login_flow (c : Config) (session_state : dict pyval)
    (username password email secret : str) (w : World) (i : Inputs) :
  session_state (lit "username") = Some (PyStr username) ->
  session_state (lit "password") = Some (PyStr password) ->
  get_config c (lit "AUTH_EMAIL") (Some (lit "admin@example.com")) = Some email ->
  get_config c (lit "AUTH_PASSWORD") (Some (lit "admin123")) = Some secret ->
  exists after,
    password_entered c session_state = Ok after /\
    (username = email /\ password = secret ->
     outcome (check_password (inputs_of_session after i)) = Ok true /\
     events (check_password (inputs_of_session after i)) = []) /\
    (~ (username = email /\ password = secret) ->
     outcome (check_password (inputs_of_session after i)) = Ok false /\
     outcome (main w (inputs_of_session after i)) = Ok tt /\
     events (main w (inputs_of_session after i))
     = [st_title ([128196%N] ++ lit " Bulk PDF OCR with Claude");
        st_markdown (lit "### " ++ [128272%N] ++ lit " Login");
        st_text_input (lit "Email");
        st_text_input (lit "Password");
        st_button (lit "Login");
        st_error ([128533%N] ++ lit " User not known or password incorrect")]).
Proof.
  intros Hu Hp He Hs.
  assert (Hfail : forall ss,
            session_password_correct
              (dict_set ss (lit "password_correct") (PyBool false)) = Some false).
  { intros ss. reflexivity. }
  destruct (list_eq_dec N.eq_dec username email) as [Eu | Eu];
    [ destruct (list_eq_dec N.eq_dec password secret) as [Ep | Ep] | ].
  - eexists. split.
    { exact (password_entered_match c session_state username password email
               secret Hu Hp He Hs Eu Ep). }
    split; [ intros _; split; reflexivity | ].
    intros Hno. exfalso. apply Hno. split; assumption.
  - eexists. split.
    { apply (password_entered_mismatch c session_state username password email
               secret Hu Hp He Hs). intros [_ H]. contradiction. }
    split; [ intros [_ H]; contradiction | ].
    intros _. unfold main, check_password, inputs_of_session.
    cbn [password_correct]. rewrite Hfail. mrun. cbn [negb]. mrun.
    repeat split; reflexivity.
  - eexists. split.
    { apply (password_entered_mismatch c session_state username password email
               secret Hu Hp He Hs). intros [H _]. contradiction. }
    split; [ intros [H _]; contradiction | ].
    intros _. unfold main, check_password, inputs_of_session.
    cbn [password_correct]. rewrite Hfail. mrun. cbn [negb]. mrun.
    repeat split; reflexivity.
Qed.

Lemma login_flow_witness :
  exists after,
    password_entered (mkConfig None dict_empty)
      (login_form_session (lit "admin@example.com") (lit "admin123")) = Ok after /\
    outcome (check_password (inputs_of_session after (Demo.inputs []))) = Ok true.
Proof.
  destruct (login_flow (mkConfig None dict_empty)
              (login_form_session (lit "admin@example.com") (lit "admin123"))
              (lit "admin@example.com") (lit "admin123")
              (lit "admin@example.com") (lit "admin123")
              Demo.world (Demo.inputs []) eq_refl eq_refl eq_refl eq_refl)
    as (after & Hrun & Hok & _).
  exists after. split; [ exact Hrun | ].
  apply Hok. split; reflexivity.
Defined.

(** ** Dots in the full-text view *)

Lemma replace_dots_step (s : str) :
  (startswith ELLIPSIS s = true /\
   replace_from ELLIPSIS [] 0 s = replace_from ELLIPSIS [] 0 (skipn 3 s)) \/
  (startswith ELLIPSIS s = false /\
   match s with
   | [] => replace_from ELLIPSIS [] 0 s = []
   | c :: s' => replace_from ELLIPSIS [] 0 s = c :: replace_from ELLIPSIS [] 0 s'
   end).
Proof.
  destruct (startswith ELLIPSIS s) eqn:E.
  - left. split; [ reflexivity | ].
    rewrite (replace_from_occurrence ELLIPSIS [] s ltac:(discriminate) E).
    reflexivity.
  - right. split; [ reflexivity | ].
    destruct s as [ | c s' ]; [ reflexivity | ].
    cbn [replace_from]. rewrite E. reflexivity.
Qed.

Lemma replace_dots_no_lead (s : str) :
  startswith [dot] s = false ->
  startswith [dot] (replace_from ELLIPSIS [] 0 s) = false.
Proof.
  destruct s as [ | c s' ]; [ reflexivity | ].
  intros H. cbn [startswith] in H. rewrite andb_true_r in H.
  cbn [replace_from].
  change (startswith ELLIPSIS (c :: s'))
    with (N.eqb dot c && startswith [dot; dot] s').
  rewrite H. cbn [andb startswith]. rewrite H. reflexivity.
Qed.

Lemma replace_dots_no_pair (s : str) :
  startswith [dot; dot] s = false ->
  startswith [dot; dot] (replace_from ELLIPSIS [] 0 s) = false.
Proof.
  destruct s as [ | c s' ]; [ reflexivity | ].
  intros H. cbn [startswith] in H.
  cbn [replace_from].
  change (startswith ELLIPSIS (c :: s'))
    with (N.eqb dot c && startswith [dot; dot] s').
  destruct (N.eqb dot c) eqn:Ec.
  - cbn [andb] in H.
    assert (H1 : startswith [dot] s' = false).
    { destruct s' as [ | d t ]; [ reflexivity | ].
      cbn [startswith] in H |- *. rewrite andb_true_r in *. exact H. }
    assert (H2 : startswith [dot; dot] s' = false).
    { destruct s' as [ | d t ]; [ reflexivity | ].
      cbn [startswith] in H1 |- *. rewrite andb_true_r in H1. rewrite H1.
      reflexivity. }
    rewrite H2. cbn [andb startswith]. rewrite Ec. cbn [andb].
    pose proof (replace_dots_no_lead s' H1) as H3.
    destruct (replace_from ELLIPSIS [] 0 s') as [ | d t ]; [ reflexivity | ].
    cbn [startswith] in H3 |- *. rewrite andb_true_r in *. exact H3.
  - cbn [andb startswith]. rewrite Ec. reflexivity.
Qed.

Lemma replace_dots_clean (n : nat) (s : str) :
  len s <= n ->
  occurrences ELLIPSIS (replace_from ELLIPSIS [] 0 s) = 0.
Proof.
  revert s. induction n as [ | n IH ]; intros s Hlen.
  - destruct s; [ reflexivity | cbn in Hlen; lia ].
  - destruct (replace_dots_step s) as [[E Heq] | [E Heq]].
    + rewrite Heq. apply IH.
      destruct s as [ | a s' ]; [ discriminate E | ].
      unfold len in *. rewrite length_skipn. cbn [List.length] in *. lia.
    + destruct s as [ | c s' ]; [ reflexivity | ].
      rewrite Heq. cbn [occurrences].
      rewrite IH by (unfold len in *; cbn [List.length] in Hlen; lia).
      change (startswith ELLIPSIS (c :: replace_from ELLIPSIS [] 0 s'))
        with (N.eqb dot c
              && startswith [dot; dot] (replace_from ELLIPSIS [] 0 s')).
      change (startswith ELLIPSIS (c :: s'))
        with (N.eqb dot c && startswith [dot; dot] s') in E.
      destruct (N.eqb dot c); [ | reflexivity ].
      cbn [andb] in E |- *. rewrite (replace_dots_no_pair s' E). reflexivity.
Qed.

(** X20. Whatever the report holds, the text of a full-text area never
    contains three dots in a row. *)
Theorem full_text_view_no_dots (results : list Entry) (result : Entry) :
  occurrences (lit "...") (full_text_shown results result) = 0.
Proof.
  unfold full_text_shown.
  exact (replace_dots_clean _ _ (Nat.le_refl _)).
Qed.

(** X21. For a report whose file names are pairwise different, the
    full-text area of a document whose text has more than 500 characters
    shows at most 500 characters, so less than the text. *)
Theorem full_text_view_cut (results : list Entry) (r : Entry)
    (pdf_text : str) :
  NoDup (map Filename results) ->
  In r results ->
  Extracted_Text r = preview pdf_text ->
  500 < len pdf_text ->
  len (full_text_shown results r) <= 500 /\
  full_text_shown results r <> pdf_text.
Proof.
  intros Hnd Hin Htext Hlong.
  assert (Hlen : len (full_text_shown results r) <= 500).
  { unfold full_text_shown.
    rewrite (next_extracted_text_unique results r Hnd Hin), Htext.
    apply full_text_view_truncates. exact Hlong. }
  split; [ exact Hlen | ].
  intros Heq. rewrite Heq in Hlen. lia.
Qed.

Lemma full_text_view_cut_witness :
  len (full_text_shown
         [mkEntry (lit "long.pdf") 1 (preview (page_block 1 (repeat 97%N 600)))]
         (mkEntry (lit "long.pdf") 1 (preview (page_block 1 (repeat 97%N 600)))))
  <= 500.
Proof.
  refine (proj1 (full_text_view_cut
            [mkEntry (lit "long.pdf") 1 (preview (page_block 1 (repeat 97%N 600)))]
            (mkEntry (lit "long.pdf") 1 (preview (page_block 1 (repeat 97%N 600))))
            (page_block 1 (repeat 97%N 600)) _ _ eq_refl _)).
  - repeat constructor. intros [].
  - left. reflexivity.
  - vm_compute. lia.
Defined.

(** * Runs with the registry of widget keys *)






Section KeyedPages.

Variable w : World.
Variables (api_key pdf_file_name : str) (format_template : option str).




End KeyedPages.

Section KeyedFiles.

Variable w : World.
Variables (api_key : str) (format_template : option str).









End KeyedFiles.

(** ** File names and widget keys *)







(** ** What the registry-aware run logs before the report *)

Section BeforeReport.

Variable w : World.
Variables (api_key : str) (format_template : option str).







End BeforeReport.

(** ** Documents that share a file name *)





(** * Whole runs without a raising call *)

Lemma progress_or_open_none (ev : event) :
  opened_of ev = None -> progress_of ev = None -> progress_or_open ev = None.
Proof. destruct ev; intros Ho Hp; try reflexivity; discriminate. Qed.

Section WholeRun.

Variable w : World.
Variables (api_key : str) (format_template : option str) (client : Client).
Hypothesis client_built : Anthropic w api_key = Ok client.

Lemma page_texts_soft_eq (pdf_file_name : str) (page_num : nat)
    (images : list Image) :
  (forall image, In image images -> exists png, Image_save w image = Ok png) ->
  page_texts w api_key pdf_file_name format_template page_num images
  = Ok (map (fun ni =>
               soft_text w client
                 (page_request w pdf_file_name format_template (fst ni)
                    (png_of w (snd ni))))
          (combine (seq page_num (List.length images)) images)).
Proof.
  revert page_num. induction images as [ | image rest IH ]; intros page_num Hall.
  - reflexivity.
  - destruct (Hall image (or_introl eq_refl)) as [png Hpng].
    cbn [page_texts List.length seq combine map fst snd].
    rewrite (extracted_soft w api_key format_template client client_built
               pdf_file_name page_num image png Hpng).
    rewrite IH by (intros im Him; apply Hall; right; exact Him).
    assert (Hp : png_of w image = png) by (unfold png_of; rewrite Hpng; reflexivity).
    rewrite Hp. reflexivity.
Qed.

Lemma file_entries_expected (f : UploadedFile) :
  (forall images image, images_of w f = Some images -> In image images ->
     exists png, Image_save w image = Ok png) ->
  file_entries w api_key format_template f
  = Ok (expected_entries w format_template client f).
Proof.
  intros Hall. unfold file_entries, expected_entries, file_requests, pages_of.
  destruct (images_of w f) as [[ | image more] | ] eqn:E; try reflexivity.
  rewrite page_texts_soft_eq
    by (intros im Him; apply (Hall (image :: more)); [ reflexivity | exact Him ]).
  rewrite map_map. reflexivity.
Qed.

Lemma run_files_expected (files : list UploadedFile) (results : list Entry) :
  no_hard_failure w api_key files client ->
  run_files w api_key format_template files results
  = Ok (results ++ flat_map (expected_entries w format_template client) files).
Proof.
  revert results. induction files as [ | f rest IH ]; intros results Hsoft.
  - cbn. rewrite app_nil_r. reflexivity.
  - cbn [run_files flat_map].
    rewrite file_entries_expected
      by (intros images image Hi Hin;
          exact (proj2 Hsoft f images image (or_introl eq_refl) Hi Hin)).
    rewrite IH by exact (no_hard_failure_cons w api_key client f rest Hsoft).
    rewrite app_assoc. reflexivity.
Qed.

Lemma main_report_events (results : list Entry) :
  events (main_report w results) = report_events w results.
Proof.
  destruct results as [ | r results ]; [ reflexivity | ].
  unfold main_report, report_events. mrun.
  rewrite main_full_text_loop_events. reflexivity.
Qed.

Lemma full_text_events_quiet (all l : list Entry) (n : nat) :
  log_map request_of
    (flat_map (fun ir => full_text_events all (fst ir) (snd ir))
       (combine (seq n (List.length l)) l)) = [] /\
  log_map opened_of
    (flat_map (fun ir => full_text_events all (fst ir) (snd ir))
       (combine (seq n (List.length l)) l)) = [] /\
  log_map progress_or_open
    (flat_map (fun ir => full_text_events all (fst ir) (snd ir))
       (combine (seq n (List.length l)) l)) = [].
Proof.
  revert n. induction l as [ | x l IH ]; intros n; [ repeat split; reflexivity | ].
  cbn [List.length seq combine flat_map]. rewrite !log_map_app.
  destruct (IH (S n)) as (-> & -> & ->). repeat split; reflexivity.
Qed.

Lemma report_events_quiet (results : list Entry) :
  log_map request_of (report_events w results) = [] /\
  log_map opened_of (report_events w results) = [] /\
  log_map progress_or_open (report_events w results) = [].
Proof.
  destruct results as [ | r results ]; [ repeat split; reflexivity | ].
  unfold report_events. rewrite !log_map_app.
  destruct (full_text_events_quiet (r :: results) (r :: results) 0)
    as (-> & -> & ->).
  repeat split; reflexivity.
Qed.

Lemma pages_events_progress_or_open (pdf_file_name : str) (page_num : nat)
    (images : list Image) :
  log_map progress_or_open
    (pages_events w format_template client pdf_file_name page_num images) = [].
Proof.
  revert page_num. induction images as [ | image rest IH ]; intros page_num.
  - reflexivity.
  - cbn [pages_events]. rewrite log_map_app, IH. reflexivity.
Qed.

Lemma files_events_progress_or_open (total idx : nat)
    (files : list UploadedFile) :
  log_map progress_or_open
    (files_events w format_template client total idx files)
  = flat_map (fun kf => [inl (fst kf + 1, total); inr (read (snd kf))])
      (combine (seq idx (List.length files)) files).
Proof.
  revert idx. induction files as [ | f rest IH ]; intros idx.
  - reflexivity.
  - cbn [files_events List.length seq combine flat_map fst snd].
    rewrite log_map_app, IH. unfold file_events.
    destruct (pdf_to_images_events_shape w f) as (tl & -> & Htl).
    assert (Hq : log_map progress_or_open tl = []).
    { apply log_map_none. eapply Forall_impl; [ | exact Htl ].
      intros ev (Ho & _ & _ & Hp & _). exact (progress_or_open_none ev Ho Hp). }
    rewrite !log_map_app. cbn [log_map progress_or_open app]. rewrite Hq.
    destruct (images_of w f) as [[ | image more] | ];
      cbn [log_map progress_or_open app];
      rewrite ?pages_events_progress_or_open; reflexivity.
Qed.

(** The whole log of the processing block. *)
Lemma main_process_exact (files : list UploadedFile) :
  no_hard_failure w api_key files client ->
  outcome (main_process w api_key format_template files) = Ok tt /\
  events (main_process w api_key format_template files)
  = [progress_bar_progress 0 1]
    ++ files_events w format_template client (List.length files) 0 files
    ++ [status_text_text (lit "Processing complete!");
        progress_bar_progress 1 1]
    ++ report_events w
         (flat_map (expected_entries w format_template client) files).
Proof.
  intros Hsoft.
  pose proof (run_files_expected files [] Hsoft) as Hrun. cbn [app] in Hrun.
  split.
  - rewrite main_process_outcome, Hrun. reflexivity.
  - rewrite main_process_events, Hrun, main_report_events.
    rewrite (main_files_loop_events w api_key format_template client
               client_built (List.length files) 0 files [] Hsoft).
    reflexivity.
Qed.

End WholeRun.

Lemma main_prelude_events_quiet (i : Inputs) :
  log_map request_of (main_prelude_events i) = [] /\
  log_map opened_of (main_prelude_events i) = [].
Proof.
  unfold main_prelude_events. destruct (use_template i); split; reflexivity.
Qed.

(** ** The cap on the number of documents, whole run *)

(** C6. With more than 5 files [main] returns without any processing
    event: no file is opened, no page rendered, no request sent, no report
    shown; a logged-in user with a key sees the cap message last.  With
    exactly 5 files and the button pressed, [main] runs the processing
    block: the first file is opened, and in a batch where no call raises
    [main] returns after logging, in this order, the widgets, the events
    of every file with one request per page, the end of the progress and
    the report with the entry of every file that has pages. *)
Theorem input_cap (w : World) (i : Inputs) :
  (5 < List.length (uploaded_files i) ->
   outcome (main w i) = Ok tt /\
   (forall ev, In ev (events (main w i)) -> processing_event ev = false) /\
   (password_correct i = Some true -> api_key i <> [] ->
    events (main w i)
    = main_prelude_events i
      ++ [st_error (lit "Please upload maximum 5 files at a time")])) /\
  (List.length (uploaded_files i) = 5 ->
   password_correct i = Some true -> api_key i <> [] ->
   process_clicked i = true ->
   events (main w i)
   = main_prelude_events i
     ++ [st_button ([128640%N] ++ lit " Process PDFs")]
     ++ events (main_process w (api_key i) (chosen_template i)
                  (uploaded_files i)) /\
   outcome (main w i)
   = outcome (main_process w (api_key i) (chosen_template i)
                (uploaded_files i)) /\
   (exists f rest,
      uploaded_files i = f :: rest /\
      In (ev_fitz_open (read f)) (events (main w i))) /\
   (forall client,
      no_hard_failure w (api_key i) (uploaded_files i) client ->
      let results :=
        flat_map (expected_entries w (chosen_template i) client)
          (uploaded_files i) in
      outcome (main w i) = Ok tt /\
      (forall f, In f (uploaded_files i) ->
         In (ev_fitz_open (read f)) (events (main w i))) /\
      events (main w i)
      = main_prelude_events i
        ++ [st_button ([128640%N] ++ lit " Process PDFs")]
        ++ [progress_bar_progress 0 1]
        ++ files_events w (chosen_template i) client
             (List.length (uploaded_files i)) 0 (uploaded_files i)
        ++ [status_text_text (lit "Processing complete!");
            progress_bar_progress 1 1]
        ++ report_events w results /\
      log_map opened_of (events (main w i)) = map read (uploaded_files i) /\
      log_map request_of (events (main w i))
      = flat_map (file_requests w (chosen_template i)) (uploaded_files i) /\
      (results <> [] -> In (st_dataframe results) (events (main w i))))).
Proof.
  split; [ apply main_over_cap | ].
  intros Hlen Hpc Hkey Hclick.
  assert (Hne : uploaded_files i <> []).
  { intros E. rewrite E in Hlen. discriminate. }
  destruct (main_at_cap w i) as [Hev Hout]; try assumption; [ lia | ].
  split; [ exact Hev | ]. split; [ exact Hout | ].
  assert (Hsub : forall ev,
            In ev (events (main_files_loop w (api_key i) (chosen_template i)
                             (List.length (uploaded_files i)) 0
                             (uploaded_files i) [])) ->
            In ev (events (main w i))).
  { intros ev Hin. rewrite Hev, main_process_events, !in_app_iff.
    do 3 right. left. exact Hin. }
  split.
  - destruct (uploaded_files i) as [ | f rest ] eqn:E; [ contradiction | ].
    exists f, rest. split; [ reflexivity | ].
    apply Hsub. cbn [main_files_loop]. mrun. apply in_or_app. left.
    apply main_file_body_opens.
  - intros client Hsoft results.
    destruct (main_process_exact w (api_key i) (chosen_template i) client
                (proj1 Hsoft) (uploaded_files i) Hsoft) as [Hpo Hpe].
    fold results in Hpe.
    assert (Hexact : events (main w i)
                     = main_prelude_events i
                       ++ [st_button ([128640%N] ++ lit " Process PDFs")]
                       ++ [progress_bar_progress 0 1]
                       ++ files_events w (chosen_template i) client
                            (List.length (uploaded_files i)) 0
                            (uploaded_files i)
                       ++ [status_text_text (lit "Processing complete!");
                           progress_bar_progress 1 1]
                       ++ report_events w results).
    { rewrite Hev, Hpe. reflexivity. }
    split; [ rewrite Hout; exact Hpo | ].
    split.
    { intros f Hf. apply Hsub.
      destruct (main_files_loop_includes_body w (api_key i) (chosen_template i)
                  client (List.length (uploaded_files i)) (uploaded_files i) f
                  Hsoft Hf 0 []) as (idx' & r' & Hincl).
      apply Hincl, main_file_body_opens. }
    split; [ exact Hexact | ].
    destruct (main_prelude_events_quiet i) as [Hpr Hpo'].
    destruct (report_events_quiet w results) as (Hrr & Hro & _).
    destruct (files_events_projections w (chosen_template i) client
                (List.length (uploaded_files i)) 0 (uploaded_files i))
      as (Hfr & _ & Hfo & _).
    split.
    { rewrite Hexact, !log_map_app, Hpo', Hfo, Hro. cbn [log_map opened_of app].
      rewrite app_nil_r. reflexivity. }
    split.
    { rewrite Hexact, !log_map_app, Hpr, Hfr, Hrr. cbn [log_map request_of app].
      rewrite app_nil_r. reflexivity. }
    intros Hres. rewrite Hexact, !in_app_iff. do 5 right.
    unfold report_events. destruct results as [ | r rs ]; [ contradiction | ].
    right. left. reflexivity.
Qed.

Lemma demo_five_no_hard_failure :
  no_hard_failure Demo.world Demo.key
    [Demo.a_pdf; Demo.b_pdf; Demo.c_pdf; Demo.long_pdf; Demo.dots_pdf]
    (ClientHandle 0).
Proof.
  split; [ reflexivity | ].
  intros f images image Hf Himg Hin.
  destruct Hf as [<- | [<- | [<- | [<- | [<- | []]]]]]; vm_compute in Himg;
    injection Himg as <-;
    repeat (destruct Hin as [<- | Hin]; [ eexists; reflexivity | ]);
    destruct Hin.
Qed.

Lemma input_cap_witness :
  outcome (main Demo.world
             (Demo.inputs [Demo.a_pdf; Demo.b_pdf; Demo.c_pdf; Demo.long_pdf;
                           Demo.dots_pdf; Demo.empty_pdf])) = Ok tt /\
  events (main Demo.world
            (Demo.inputs [Demo.a_pdf; Demo.b_pdf; Demo.c_pdf; Demo.long_pdf;
                          Demo.dots_pdf; Demo.empty_pdf]))
  = main_prelude_events
      (Demo.inputs [Demo.a_pdf; Demo.b_pdf; Demo.c_pdf; Demo.long_pdf;
                    Demo.dots_pdf; Demo.empty_pdf])
    ++ [st_error (lit "Please upload maximum 5 files at a time")] /\
  (exists f rest,
     [Demo.a_pdf; Demo.b_pdf; Demo.c_pdf; Demo.long_pdf; Demo.dots_pdf]
     = f :: rest /\
     In (ev_fitz_open (read f))
        (events (main Demo.world
                   (Demo.inputs [Demo.a_pdf; Demo.b_pdf; Demo.c_pdf;
                                 Demo.long_pdf; Demo.dots_pdf])))) /\
  List.length
    (log_map request_of
       (events (main Demo.world
                  (Demo.inputs [Demo.a_pdf; Demo.b_pdf; Demo.c_pdf;
                                Demo.long_pdf; Demo.dots_pdf])))) = 8 /\
  map Filename
    (flat_map (expected_entries Demo.world None (ClientHandle 0))
       [Demo.a_pdf; Demo.b_pdf; Demo.c_pdf; Demo.long_pdf; Demo.dots_pdf])
  = [lit "a.pdf"; lit "b.pdf"; lit "c.pdf"; lit "long.pdf"; lit "dots.pdf"].
Proof.
  destruct (input_cap Demo.world
              (Demo.inputs [Demo.a_pdf; Demo.b_pdf; Demo.c_pdf; Demo.long_pdf;
                            Demo.dots_pdf; Demo.empty_pdf])) as [Hover _].
  destruct Hover as (Hout & _ & Hev); [ simpl; lia | ].
  split; [ exact Hout | ].
  split; [ apply Hev; [ reflexivity | discriminate ] | ].
  destruct (input_cap Demo.world
              (Demo.inputs [Demo.a_pdf; Demo.b_pdf; Demo.c_pdf; Demo.long_pdf;
                            Demo.dots_pdf])) as [_ Hat].
  destruct Hat as (_ & _ & Hfirst & Hrun);
    [ reflexivity | reflexivity | discriminate | reflexivity | ].
  split; [ exact Hfirst | ].
  destruct (Hrun (ClientHandle 0) demo_five_no_hard_failure)
    as (_ & _ & _ & _ & Hreq & _).
  split; [ rewrite Hreq; vm_compute; reflexivity | vm_compute; reflexivity ].
Defined.

(** ** Progress, whole run *)

(** X12. In a batch of [n] files where no call raises, the progress bar is
    set to 0 at the start, to [k / n] just before the [k]-th file is
    opened, for [k] from 1 to [n], and to 1 after the last file; it never
    exceeds 1. *)
Theorem batch_progress (w : World) (api_key : str)
    (format_template : option str) (client : Client)
    (files : list UploadedFile) :
  no_hard_failure w api_key files client ->
  log_map progress_or_open
    (events (main_process w api_key format_template files))
  = inl (0, 1)
    :: flat_map (fun kf => [inl (fst kf + 1, List.length files);
                            inr (read (snd kf))])
         (combine (seq 0 (List.length files)) files)
    ++ [inl (1, 1)] /\
  log_map progress_of (events (main_process w api_key format_template files))
  = (0, 1) :: map (fun k => (k + 1, List.length files))
                (seq 0 (List.length files)) ++ [(1, 1)] /\
  forall num den,
    In (num, den)
       (log_map progress_of
          (events (main_process w api_key format_template files))) ->
    num <= den /\ 0 < den.
Proof.
  intros Hsoft.
  destruct (main_process_exact w api_key format_template client (proj1 Hsoft)
              files Hsoft) as [_ Hexact].
  assert (Heq : log_map progress_of
                  (events (main_process w api_key format_template files))
                = (0, 1) :: map (fun k => (k + 1, List.length files))
                              (seq 0 (List.length files)) ++ [(1, 1)]).
  { rewrite main_process_events.
    destruct (run_files_soft w api_key format_template client (proj1 Hsoft)
                files [] Hsoft) as (r & -> & _).
    rewrite !log_map_app.
    rewrite (main_files_loop_events w api_key format_template client
               (proj1 Hsoft) (List.length files) 0 files [] Hsoft).
    rewrite (proj2 (proj2 (proj2
               (files_events_projections w format_template client
                  (List.length files) 0 files)))).
    rewrite main_report_no_progress. reflexivity. }
  split.
  { rewrite Hexact, !log_map_app, files_events_progress_or_open.
    rewrite (proj2 (proj2 (report_events_quiet w _))). reflexivity. }
  split; [ exact Heq | ].
  intros num den Hin. rewrite Heq in Hin.
  destruct Hin as [Hin | Hin]; [ injection Hin as <- <-; lia | ].
  apply in_app_or in Hin. destruct Hin as [Hin | [Hin | []]].
  - apply in_map_iff in Hin. destruct Hin as (k & Hk & Hseq).
    injection Hk as <- <-. apply in_seq in Hseq. lia.
  - injection Hin as <- <-. lia.
Qed.

Lemma batch_progress_witness :
  log_map progress_or_open
    (events (main_process Demo.world Demo.key None
               ([Demo.a_pdf] ++ Demo.b_pdf :: [Demo.c_pdf])))
  = [inl (0, 1); inl (1, 3); inr [1; 1]%N; inl (2, 3); inr [9; 3]%N;
     inl (3, 3); inr [2; 2]%N; inl (1, 1)].
Proof.
  rewrite (proj1 (batch_progress Demo.world Demo.key None (ClientHandle 0)
                    ([Demo.a_pdf] ++ Demo.b_pdf :: [Demo.c_pdf])
                    demo_no_hard_failure)).
  reflexivity.
Defined.

(** ** Later documents without an entry *)

